(** * solPaper: the paper-trading ledger and the price aggregator of [bot.py]

    A shallow embedding of [PaperTradingBot] (src/bot.py): the slippage
    model [apply_slippage], the quote chain with its cache
    [get_token_info], the ledger commands [buy], [sell], [fund] and
    [reset], and the snapshot file written by [save_data] and read back
    by [load_data]; then [start], the trading buttons of
    [handle_position_actions], [watch_command], [handle_settings], and
    the figures of [stats_command], [leaderboard] and [history].

    Conventions of the embedding.
    - A Python [float] is an exact rational ([Q]): every amount, balance
      and price is a finite number, and arithmetic does not round.  The
      values [nan] and [inf], which [float] also reads from a command,
      are outside the model, and a property below speaks of finite
      numbers only; where it equates two expressions, it equates the
      expressions that the code computes.  A float division raises
      [ZeroDivisionError] on a zero divisor, which [pydiv] makes explicit.
    - A [dict] with integer or string keys is a [gmap]; a dict whose keys
      may be absent is a record of [option] fields.
    - What a handler reads from its surroundings (the providers' answers,
      the clock, the random draw, the outcome of the file write) is
      passed in as an [Env]; what it mutates is the [Bot] state, returned
      together with an [Outcome] that names the reply it sent.
    - The commands take their arguments already tokenised and converted
      ([context.args] checked for length and passed through [float]). *)

From Stdlib Require Import QArith Lqa ZArith Ascii String List.
From Stdlib Require Import Decimal DecimalString DecimalZ.
From stdpp Require Import gmap strings sorting.

Local Open Scope Q_scope.

(** ** Python numbers *)

(** [x < y] on floats. *)
Definition Qltb (x y : Q) : bool := negb (Qle_bool y x).

(** [x > y] on floats. *)
Definition Qgtb (x y : Q) : bool := Qltb y x.

(** Truth value of a float: [0.0] is false. *)
Definition truthy (x : Q) : bool := negb (Qeq_bool x 0).

(** Truth value of [info['price']], which is [None] or a float:
    [not price] holds for [None] and for [0.0]. *)
Definition has_price (p : option Q) : bool :=
  match p with
  | None => false
  | Some x => truthy x
  end.

(** [x / y] on floats: [None] stands for [ZeroDivisionError]. *)
Definition pydiv (x y : Q) : option Q :=
  if Qeq_bool y 0 then None else Some (x / y).

(** ** Data model *)

(** The quote built by [get_token_info]: the [info] dict. *)
Module Info.
Record t := mk {
  price : option Q;
  price_usd : option Q;
  name : option string;
  symbol : option string;
  market_cap : option Q;
  liquidity : option Q;
  volume_24h : option Q;
  price_change_24h : option Q;
  holders : option Q;
  created_at : option Q;
  dex_name : option string;
  pair_address : option string;
  sol_price : Q;
  price_timestamp : option Q
}.

(** The dict [info] starts from: every field [None], ['sol_price'] 0. *)
Definition init : t :=
  mk None None None None None None None None None None None None 0 None.
End Info.

(** An entry of [portfolio['positions']]. *)
Module Position.
Record t := mk {
  amount : Q;
  avg_price : Q;
  symbol : option string
}.
End Position.

Inductive TradeType := BUY | SELL.

(** An entry of [portfolio['history']].  ['profit'] is present on the
    trades appended by a sell only. *)
Module Trade.
Record t := mk {
  type : TradeType;
  token : string;
  amount : Q;
  price : Q;
  value_sol : Q;
  profit : option Q;
  timestamp : string
}.
End Trade.

(** A value of [portfolios]. *)
Record Portfolio := mkPortfolio {
  balance : Q;
  positions : gmap string Position.t;
  history : list Trade.t
}.

(** A value of [user_settings]; the key ['slippage'] may be absent. *)
Record Settings := mkSettings { slippage : option Q }.

(** A value of [user_stats]. *)
Record Stats := mkStats {
  username : option string;
  first_name : option string;
  joined_at : string;
  last_active : string;
  commands : gmap string Z
}.

(** A value of [self.price_cache]. *)
Record CacheEntry := mkCacheEntry {
  timestamp : Q;
  data : Info.t
}.

(** The snapshot file [paper_trading_data.json]: four collections keyed
    by the string form of the user id; [None] is a key that the document
    does not have.  The records inside are written and read back by the
    [json] module as they are. *)
Record Document := mkDocument {
  doc_portfolios : option (list (string * Portfolio));
  doc_watchlists : option (list (string * list string));
  doc_user_settings : option (list (string * Settings));
  doc_user_stats : option (list (string * Stats))
}.

(** The module-level dicts, the bot's cache, and the file on disk
    ([None]: the file does not exist). *)
Record Bot := mkBot {
  portfolios : gmap Z Portfolio;
  watchlists : gmap Z (list string);
  user_settings : gmap Z Settings;
  user_stats : gmap Z Stats;
  price_cache : gmap string CacheEntry;
  disk : option Document
}.

Definition set_portfolios (b : Bot) (p : gmap Z Portfolio) : Bot :=
  mkBot p (watchlists b) (user_settings b) (user_stats b) (price_cache b) (disk b).

Definition set_user_stats (b : Bot) (s : gmap Z Stats) : Bot :=
  mkBot (portfolios b) (watchlists b) (user_settings b) s (price_cache b) (disk b).

Definition set_price_cache (b : Bot) (c : gmap string CacheEntry) : Bot :=
  mkBot (portfolios b) (watchlists b) (user_settings b) (user_stats b) c (disk b).

Definition set_disk (b : Bot) (d : option Document) : Bot :=
  mkBot (portfolios b) (watchlists b) (user_settings b) (user_stats b) (price_cache b) d.

(** [self.starting_balance]. *)
Definition starting_balance : Q := 20.

(** The portfolio a user gets on first contact and on [/reset]. *)
Definition fresh_portfolio : Portfolio := mkPortfolio starting_balance ∅ [].

(** ** Slippage *)

(** [random.uniform(a, b)] is [a + (b - a) * random()], where [u] is the
    value of [random()], a float of [[0, 1)]. *)
Definition uniform (a b u : Q) : Q := a + (b - a) * u.

(** [settings.get('slippage', 1.0)] for
    [settings = user_settings.get(user_id, {})]. *)
Definition slippage_pct (settings : gmap Z Settings) (user_id : Z) : Q :=
  match settings !! user_id with
  | Some s => default 1 (slippage s)
  | None => 1
  end.

(** [apply_slippage]: the execution price and the percentage applied. *)
Definition apply_slippage (settings : gmap Z Settings) (u : Q)
    (price : Q) (is_buy : bool) (user_id : Z) : Q * Q :=
  let impact := uniform 0 (slippage_pct settings user_id / 100) u in
  let exec_price := if is_buy then price * (1 + impact) else price * (1 - impact) in
  (exec_price, impact * 100).

(** ** The quote providers *)

(** What one [session.get] gives: an exception (time-out, connection
    error, a body that is not JSON), a status other than 200, or the
    decoded body.  Bodies are typed records: a field that the handler
    reads holds a value of the JSON type the handler expects, or is
    absent.  Values of another type are not represented, with one
    exception, the [null] of Pump.fun's [market_cap] (see [Field]). *)
Inductive Response (A : Type) :=
  | Raised
  | NotOK
  | OK (body : A).
Arguments Raised {A}.
Arguments NotOK {A}.
Arguments OK {A} body.

(** A key of a JSON object that the handler multiplies by a number: the
    key is absent, its value is [null] (Python's [None], for which the
    product raises [TypeError]), or it is a number. *)
Inductive Field (A : Type) :=
  | Absent
  | Null
  | Value (a : A).
Arguments Absent {A}.
Arguments Null {A}.
Arguments Value {A} a.

(** The body of the Pump.fun coin endpoint.  [has_mint] is
    ['mint' in data]; the optional fields are the keys read with [get];
    [created_timestamp] is in milliseconds. *)
Record PumpCoin := mkPumpCoin {
  has_mint : bool;
  complete : bool;
  virtual_sol_reserves : Z;
  virtual_token_reserves : Z;
  pump_name : option string;
  pump_symbol : option string;
  pump_market_cap : Field Q;
  created_timestamp : option Z
}.

(** One element of [pairs] in a DexScreener body. *)
Record DexPair := mkDexPair {
  baseToken_name : option string;
  baseToken_symbol : option string;
  priceUsd : option Q;
  fdv : option Q;
  liquidity_usd : option Q;
  volume_h24 : option Q;
  priceChange_h24 : option Q;
  dexId : option string;
  pairAddress : option string;
  pairCreatedAt : option Z
}.

(** What one call meets outside the program: the answers of the
    providers and the range of the platform's [datetime.fromtimestamp].
    A DexScreener body is its list of pairs (empty when the key is
    missing); a Jupiter body is [data[token]] when present, holding its
    ['price'] when present; a Birdeye body is [data['value']] when
    present.  [fromtimestamp_ok s] tells whether
    [datetime.fromtimestamp(s)] returns, for [s] in seconds; outside the
    range of the platform it raises. *)
Record Network := mkNetwork {
  session_ok : bool;
  sol_jupiter : Response Q;
  sol_dexscreener : Response (list DexPair);
  pump_fun : string -> Response PumpCoin;
  dexscreener : string -> Response (list DexPair);
  jupiter : string -> Response (option (option Q));
  birdeye : string -> Response (option Q);
  fromtimestamp_ok : Q -> bool
}.

(** The requests a call issues, in order: one constructor for each
    [session.get] of the code.  Two of them may reach the same address:
    [GetSolJupiter] and [GetJupiter t] query the price API of Jupiter,
    with [ids=SOL] and [ids=t]; [GetSolDexScreener] and
    [GetDexScreener t] query the token API of DexScreener, for the
    wrapped SOL mint and for [t]. *)
Inductive Request :=
  | GetSolJupiter
  | GetSolDexScreener
  | GetPumpFun (token : string)
  | GetDexScreener (token : string)
  | GetJupiter (token : string)
  | GetBirdeye (token : string).

(** The clock readings of one call: [time.time()] on entry, the
    [datetime.now()] stamped on a price, [time.time()] when the result is
    stored in the cache. *)
Record Clock := mkClock {
  t_enter : Q;
  t_price : Q;
  t_store : Q
}.

(** Step 0: the SOL price in USD.  DexScreener is tried only when the
    Jupiter request raised. *)
Definition fetch_sol_price (net : Network) : Q * list Request :=
  match sol_jupiter net with
  | OK p => (p, [GetSolJupiter])
  | NotOK => (0, [GetSolJupiter])
  | Raised =>
      match sol_dexscreener net with
      | OK (first :: _) => (default 0 (priceUsd first), [GetSolJupiter; GetSolDexScreener])
      | _ => (0, [GetSolJupiter; GetSolDexScreener])
      end
  end.

(** How a part of [get_token_info] under its [try] is left: by the
    [return info] of the Pump.fun branch, or by going on to the code
    after it. *)
Inductive Exit :=
  | Returned (info : Info.t)
  | FellThrough (info : Info.t).

(** [info] once the Pump.fun branch has stored price, USD price, name
    and symbol. *)
Definition pump_priced (c : PumpCoin) (sol_price : Q) (info : Info.t) : Info.t :=
  let price_sol :=
    (inject_Z (virtual_sol_reserves c) / 1000000000)
    / (inject_Z (virtual_token_reserves c) / 1000000) in
  Info.mk
    (Some price_sol)
    (Some (if truthy sol_price then price_sol * sol_price else 0))
    (Some (default "Unknown"%string (pump_name c)))
    (Some (default "Unknown"%string (pump_symbol c)))
    (Info.market_cap info) (Info.liquidity info) (Info.volume_24h info)
    (Info.price_change_24h info) (Info.holders info) (Info.created_at info)
    (Info.dex_name info) (Info.pair_address info) (Info.sol_price info)
    (Info.price_timestamp info).

(** [info] once the branch has also stored the market capitalisation
    [cap * sol_price], its own name as the source and the time of the
    price. *)
Definition pump_stamped (cap sol_price now : Q) (info : Info.t) : Info.t :=
  Info.mk
    (Info.price info) (Info.price_usd info) (Info.name info) (Info.symbol info)
    (Some (cap * sol_price))
    (Info.liquidity info) (Info.volume_24h info) (Info.price_change_24h info)
    (Info.holders info) (Info.created_at info)
    (Some "Pump.fun (Bonding Curve)"%string)
    (Info.pair_address info) (Info.sol_price info)
    (Some now).

(** [info] with ['created_at'] set. *)
Definition with_created_at (seconds : Q) (info : Info.t) : Info.t :=
  Info.mk
    (Info.price info) (Info.price_usd info) (Info.name info) (Info.symbol info)
    (Info.market_cap info) (Info.liquidity info) (Info.volume_24h info)
    (Info.price_change_24h info) (Info.holders info) (Some seconds)
    (Info.dex_name info) (Info.pair_address info) (Info.sol_price info)
    (Info.price_timestamp info).

(** Step 1: Pump.fun, used while the coin is on its bonding curve.  The
    branch writes into [info] field by field and ends with
    [return info].  Two of its statements can raise after the price was
    stored: the product [data.get('market_cap', 0) * sol_price] when the
    market capitalisation is [null], and [datetime.fromtimestamp] when
    the creation time is out of range.  The [except] around the branch
    catches the exception, and the call goes on to DexScreener with what
    was written into [info] so far. *)
Definition pump_stage (r : Response PumpCoin) (sol_price now : Q)
    (fromtimestamp_ok : Q -> bool) (info : Info.t) : Exit :=
  match r with
  | OK c =>
      if has_mint c && negb (complete c) then
        if (0 <? virtual_token_reserves c)%Z then
          let priced := pump_priced c sol_price info in
          let stamped cap := pump_stamped cap sol_price now priced in
          let finish cap :=
            match created_timestamp c with
            | Some ts =>
                if (ts =? 0)%Z then Returned (stamped cap)
                else if fromtimestamp_ok (inject_Z ts / 1000)
                then Returned (with_created_at (inject_Z ts / 1000) (stamped cap))
                else FellThrough (stamped cap)
            | None => Returned (stamped cap)
            end in
          match pump_market_cap c with
          | Absent => finish 0
          | Value cap => finish cap
          | Null => FellThrough priced
          end
        else FellThrough info
      else FellThrough info
  | _ => FellThrough info
  end.

(** [max(pairs, key=...)] on a list with head [x]: the first pair whose
    key is the greatest. *)
Definition max_by {A : Type} (key : A -> Q) (x : A) (l : list A) : A :=
  fold_left (fun best y => if Qltb (key best) (key y) then y else best) l x.

(** [x.get('liquidity', {}).get('usd', 0) or 0]. *)
Definition liquidity_key (x : DexPair) : Q := default 0 (liquidity_usd x).

(** Step 2: DexScreener, the pair with the highest liquidity.  The
    creation time is the last field written: when
    [datetime.fromtimestamp] raises on it, the fields before it are
    written and ['created_at'] is not. *)
Definition dexscreener_stage (r : Response (list DexPair)) (sol_price now : Q)
    (fromtimestamp_ok : Q -> bool) (info : Info.t) : Info.t :=
  match r with
  | OK (p0 :: ps) =>
      let best := max_by liquidity_key p0 ps in
      let usd := default 0 (priceUsd best) in
      Info.mk
        (if Qgtb sol_price 0 then Some (usd / sol_price) else Info.price info)
        (Some usd)
        (Some (default "Unknown"%string (baseToken_name best)))
        (Some (default "Unknown"%string (baseToken_symbol best)))
        (fdv best)
        (liquidity_usd best)
        (volume_h24 best)
        (priceChange_h24 best)
        (Info.holders info)
        (match pairCreatedAt best with
         | Some ts => if (ts =? 0)%Z then Info.created_at info
                      else if fromtimestamp_ok (inject_Z ts / 1000)
                      then Some (inject_Z ts / 1000)
                      else Info.created_at info
         | None => Info.created_at info
         end)
        (Some (default "Unknown DEX"%string (dexId best)))
        (Some (default ""%string (pairAddress best)))
        (Info.sol_price info)
        (Some now)
  | _ => info
  end.

(** The update shared by the two fall-backs, which know a USD price only. *)
Definition usd_only (usd : Q) (source : string) (sol_price now : Q) (info : Info.t)
    : Info.t :=
  Info.mk
    (if Qgtb sol_price 0 then Some (usd / sol_price) else Info.price info)
    (Some usd)
    (Info.name info) (Info.symbol info) (Info.market_cap info)
    (Info.liquidity info) (Info.volume_24h info) (Info.price_change_24h info)
    (Info.holders info) (Info.created_at info)
    (Some source)
    (Info.pair_address info)
    (Info.sol_price info)
    (Some now).

(** Fall-back 1: the Jupiter price API. *)
Definition jupiter_stage (r : Response (option (option Q))) (sol_price now : Q)
    (info : Info.t) : Info.t :=
  match r with
  | OK (Some price_data) =>
      usd_only (default 0 price_data) "Jupiter Aggregated" sol_price now info
  | _ => info
  end.

(** Fall-back 2: the Birdeye public price API. *)
Definition birdeye_stage (r : Response (option Q)) (sol_price now : Q)
    (info : Info.t) : Info.t :=
  match r with
  | OK (Some value) => usd_only value "Birdeye" sol_price now info
  | _ => info
  end.

(** [info] with ['sol_price'] set. *)
Definition with_sol_price (sol_price : Q) (info : Info.t) : Info.t :=
  Info.mk (Info.price info) (Info.price_usd info) (Info.name info)
    (Info.symbol info) (Info.market_cap info) (Info.liquidity info)
    (Info.volume_24h info) (Info.price_change_24h info) (Info.holders info)
    (Info.created_at info) (Info.dex_name info) (Info.pair_address info)
    sol_price (Info.price_timestamp info).

(** The provider chain: everything between the cache look-up and the
    cache store. *)
Definition fetch_chain (net : Network) (now : Q) (token_address : string)
    : Exit * list Request :=
  if session_ok net then
    let '(sol_price, r0) := fetch_sol_price net in
    let info0 := with_sol_price sol_price Info.init in
    match pump_stage (pump_fun net token_address) sol_price now
            (fromtimestamp_ok net) info0 with
    | Returned info => (Returned info, r0 ++ [GetPumpFun token_address])
    | FellThrough info0' =>
        let info1 :=
          dexscreener_stage (dexscreener net token_address) sol_price now
            (fromtimestamp_ok net) info0' in
        let r1 := r0 ++ [GetPumpFun token_address; GetDexScreener token_address] in
        let '(info2, r2) :=
          if has_price (Info.price info1) then (info1, r1)
          else (jupiter_stage (jupiter net token_address) sol_price now info1,
                r1 ++ [GetJupiter token_address]) in
        let '(info3, r3) :=
          if has_price (Info.price info2) then (info2, r2)
          else (birdeye_stage (birdeye net token_address) sol_price now info2,
                r2 ++ [GetBirdeye token_address]) in
        (FellThrough info3, r3)
    end
  else (FellThrough Info.init, []).

(** The cache look-up on entry: an entry younger than 10 seconds. *)
Definition cache_lookup (cache : gmap string CacheEntry) (current_time : Q)
    (token_address : string) : option Info.t :=
  match cache !! token_address with
  | Some cached =>
      if Qltb (current_time - timestamp cached) 10 then Some (data cached) else None
  | None => None
  end.

(** [get_token_info]: the quote, the cache afterwards and the requests
    issued. *)
Definition get_token_info (cache : gmap string CacheEntry) (net : Network)
    (clk : Clock) (token_address : string)
    : Info.t * gmap string CacheEntry * list Request :=
  match cache_lookup cache (t_enter clk) token_address with
  | Some cached => (cached, cache, [])
  | None =>
      match fetch_chain net (t_price clk) token_address with
      | (Returned info, reqs) => (info, cache, reqs)
      | (FellThrough info, reqs) =>
          (info, <[token_address := mkCacheEntry (t_store clk) info]> cache, reqs)
      end
  end.

(** ** Persistence *)

(** The key [json.dump] writes for an integer key: its decimal form. *)
Definition py_str (k : Z) : string := NilZero.string_of_int (Z.to_int k).

(** [int(k)] on a key of the document, for the keys that [json.dump]
    writes: digits, after a [-] for a negative number.  [None] stands
    for [ValueError].  Python's [int] also converts a key with a leading
    [+], with blanks around it, with underscores between digits or with
    digits that are not ASCII; [save_data] writes none of these, and on
    them the definition is stricter than Python: it is [None] where
    Python returns a number. *)
Definition py_int (s : string) : option Z := Z.of_int <$> NilZero.int_of_string s.

(** A character that no string accepted by Python's [int] contains: a
    printable ASCII character (codes 33 to 126) that is not a digit, a
    sign or an underscore. *)
Definition foreign_to_int (a : ascii) : bool :=
  let n := nat_of_ascii a in
  ((33 <=? n) && (n <=? 126)
   && negb ((48 <=? n) && (n <=? 57))
   && negb (n =? 43) && negb (n =? 45) && negb (n =? 95))%nat.

(** The string has such a character: [int] raises [ValueError] on it. *)
Fixpoint has_foreign_char (s : string) : bool :=
  match s with
  | EmptyString => false
  | String a rest => foreign_to_int a || has_foreign_char rest
  end.

(** One of the four dicts as [json.dump] writes it. *)
Definition dump_dict {V : Type} (m : gmap Z V) : list (string * V) :=
  (fun kv => (py_str kv.1, kv.2)) <$> map_to_list m.

(** The [data] dict that [save_data] hands to [_write_file_sync]. *)
Definition snapshot (b : Bot) : Document :=
  mkDocument (Some (dump_dict (portfolios b))) (Some (dump_dict (watchlists b)))
    (Some (dump_dict (user_settings b))) (Some (dump_dict (user_stats b))).

(** [_write_file_sync]: the document goes to a temporary file, which then
    replaces the snapshot file. *)
Definition _write_file_sync (b : Bot) (d : Document) : Bot := set_disk b (Some d).

(** [save_data].  An exception of the write is caught and printed, and
    leaves the file as it was: [write_ok] tells whether the write goes
    through. *)
Definition save_data (write_ok : bool) (b : Bot) : Bot :=
  if write_ok then _write_file_sync b (snapshot b) else b.

(** The loop [for k, v in data[...].items(): d[int(k)] = v] on a cleared
    dict [acc].  The flag is false when [int] raised, which leaves the
    dict as filled so far. *)
Fixpoint load_items {V : Type} (items : list (string * V)) (acc : gmap Z V)
    : gmap Z V * bool :=
  match items with
  | [] => (acc, true)
  | (k, v) :: rest =>
      match py_int k with
      | Some n => load_items rest (<[n := v]> acc)
      | None => (acc, false)
      end
  end.

(** One [if '...' in data:] block of [load_data]. *)
Definition load_collection {V : Type} (items : option (list (string * V)))
    (current : gmap Z V) : gmap Z V * bool :=
  match items with
  | Some l => load_items l ∅
  | None => (current, true)
  end.

(** [load_data]: a missing file leaves the state as it is; an exception
    ends the loading where it occurs. *)
Definition load_data (b : Bot) : Bot :=
  match disk b with
  | None => b
  | Some doc =>
      let '(p, ok_p) := load_collection (doc_portfolios doc) (portfolios b) in
      if negb ok_p then
        mkBot p (watchlists b) (user_settings b) (user_stats b) (price_cache b) (disk b)
      else
      let '(w, ok_w) := load_collection (doc_watchlists doc) (watchlists b) in
      if negb ok_w then
        mkBot p w (user_settings b) (user_stats b) (price_cache b) (disk b)
      else
      let '(s, ok_s) := load_collection (doc_user_settings doc) (user_settings b) in
      if negb ok_s then
        mkBot p w s (user_stats b) (price_cache b) (disk b)
      else
      let '(a, _) := load_collection (doc_user_stats doc) (user_stats b) in
      mkBot p w s a (price_cache b) (disk b)
  end.

(** ** The ledger *)

(** [update.effective_user]. *)
Record User := mkUser {
  uid : Z;
  user_username : option string;
  user_first_name : option string
}.

(** What one handler invocation reads from its surroundings.
    [now_activity] and [now_trade] are the values of
    [datetime.now().isoformat()] in [log_activity] and on the trade;
    [draw] is the value of [random()]. *)
Record Env := mkEnv {
  net : Network;
  clock : Clock;
  now_activity : string;
  now_trade : string;
  draw : Q;
  write_ok : bool
}.

(** The reply a handler sends, or the exception it ends with. *)
Inductive Outcome :=
  | Bought (tokens exec_price slippage_hit : Q)
  | Sold (amount exec_price sol_amount profit profit_pct slippage_hit : Q)
  | Funded (amount : Q)
  | InsufficientBalance
  | QuoteUnavailable
  | NoPortfolio
  | NoSuchPosition
  | InsufficientHoldings
  | InvalidAmount
  | ZeroDivisionError.

(** [log_activity]. *)
Definition log_activity (user : User) (now : string) (command_name : string)
    (b : Bot) : Bot :=
  let stats :=
    default (mkStats (user_username user) (user_first_name user) now now ∅)
            (user_stats b !! uid user) in
  let count := default 0%Z (commands stats !! command_name) in
  set_user_stats b
    (<[uid user :=
         mkStats (user_username user) (first_name stats) (joined_at stats) now
                 (<[command_name := (count + 1)%Z]> (commands stats))]>
       (user_stats b)).

(** The opening of [buy] (and of [start]): a user without a portfolio
    gets a fresh one, which is saved. *)
Definition ensure_portfolio (write_ok : bool) (user_id : Z) (b : Bot) : Bot :=
  match portfolios b !! user_id with
  | Some _ => b
  | None =>
      save_data write_ok (set_portfolios b (<[user_id := fresh_portfolio]> (portfolios b)))
  end.

(** [buy] from the quote on: the portfolio as the handler leaves it, and
    the outcome.  The balance is debited before the position is merged,
    so a division by zero in the average leaves the debit in place. *)
Definition buy_fill (settings : gmap Z Settings) (u : Q) (user_id : Z) (now : string)
    (portfolio : Portfolio) (info : Info.t) (token : string) (sol_amount : Q)
    : Portfolio * Outcome :=
  match Info.price info with
  | None => (portfolio, QuoteUnavailable)
  | Some price =>
      if negb (truthy price) then (portfolio, QuoteUnavailable) else
      let '(exec_price, slippage_hit) := apply_slippage settings u price true user_id in
      match pydiv sol_amount exec_price with
      | None => (portfolio, ZeroDivisionError)
      | Some tokens =>
          let debited := balance portfolio - sol_amount in
          let trade :=
            Trade.mk BUY token tokens exec_price sol_amount None now in
          match positions portfolio !! token with
          | Some pos =>
              let old_tokens := Position.amount pos in
              let old_avg := Position.avg_price pos in
              let new_total := old_tokens + tokens in
              match pydiv (old_tokens * old_avg + tokens * exec_price) new_total with
              | None =>
                  (mkPortfolio debited (positions portfolio) (history portfolio),
                   ZeroDivisionError)
              | Some new_avg =>
                  (mkPortfolio debited
                     (<[token := Position.mk new_total new_avg (Info.symbol info)]>
                        (positions portfolio))
                     (history portfolio ++ [trade]),
                   Bought tokens exec_price slippage_hit)
              end
          | None =>
              (mkPortfolio debited
                 (<[token := Position.mk tokens exec_price (Info.symbol info)]>
                    (positions portfolio))
                 (history portfolio ++ [trade]),
               Bought tokens exec_price slippage_hit)
          end
      end
  end.

(** The portfolio of a user as a handler finds it after
    [ensure_portfolio]. *)
Definition portfolio_of (b : Bot) (user_id : Z) : Portfolio :=
  default fresh_portfolio (portfolios b !! user_id).

(** The [/buy <token> <sol_amount>] command. *)
Definition buy (b : Bot) (env : Env) (user : User) (token : string) (sol_amount : Q)
    : Bot * Outcome :=
  let user_id := uid user in
  let b1 := ensure_portfolio (write_ok env) user_id
              (log_activity user (now_activity env) "buy" b) in
  let portfolio := portfolio_of b1 user_id in
  if Qgtb sol_amount (balance portfolio) then (b1, InsufficientBalance) else
  let '(info, cache, _) :=
    get_token_info (price_cache b1) (net env) (clock env) token in
  let b2 := set_price_cache b1 cache in
  let '(portfolio', outcome) :=
    buy_fill (user_settings b2) (draw env) user_id (now_trade env)
             portfolio info token sol_amount in
  let b3 := set_portfolios b2 (<[user_id := portfolio']> (portfolios b2)) in
  match outcome with
  | Bought _ _ _ => (save_data (write_ok env) b3, outcome)
  | _ => (b3, outcome)
  end.

(** The second argument of [/sell]: the word [all] or a number. *)
Inductive Selector :=
  | All
  | Amount (a : Q).

(** The amount to sell: the whole position for [all]. *)
Definition selected_amount (sel : Selector) (pos : Position.t) : Q :=
  match sel with
  | All => Position.amount pos
  | Amount a => a
  end.

(** [sell] from the quote on.  [profit_pct] divides by the average price
    before anything is changed. *)
Definition sell_fill (settings : gmap Z Settings) (u : Q) (user_id : Z) (now : string)
    (portfolio : Portfolio) (pos : Position.t) (info : Info.t) (token : string)
    (amount : Q) : Portfolio * Outcome :=
  match Info.price info with
  | None => (portfolio, QuoteUnavailable)
  | Some price =>
      if negb (truthy price) then (portfolio, QuoteUnavailable) else
      let '(exec_price, slippage_hit) := apply_slippage settings u price false user_id in
      let sol_amount := amount * exec_price in
      let avg_price := Position.avg_price pos in
      let profit := (exec_price - avg_price) * amount in
      match pydiv exec_price avg_price with
      | None => (portfolio, ZeroDivisionError)
      | Some ratio =>
          let profit_pct := (ratio - 1) * 100 in
          let residual := Position.amount pos - amount in
          let trade :=
            Trade.mk SELL token amount exec_price sol_amount (Some profit) now in
          (mkPortfolio (balance portfolio + sol_amount)
             (if Qltb residual 0.0001 then delete token (positions portfolio)
              else <[token := Position.mk residual avg_price (Position.symbol pos)]>
                     (positions portfolio))
             (history portfolio ++ [trade]),
           Sold amount exec_price sol_amount profit profit_pct slippage_hit)
      end
  end.

(** The [/sell <token> <amount|all>] command. *)
Definition sell (b : Bot) (env : Env) (user : User) (token : string) (sel : Selector)
    : Bot * Outcome :=
  let user_id := uid user in
  let b1 := log_activity user (now_activity env) "sell" b in
  match portfolios b1 !! user_id with
  | None => (b1, NoPortfolio)
  | Some portfolio =>
      match positions portfolio !! token with
      | None => (b1, NoSuchPosition)
      | Some pos =>
          let amount := selected_amount sel pos in
          if Qgtb amount (Position.amount pos) then (b1, InsufficientHoldings) else
          let '(info, cache, _) :=
            get_token_info (price_cache b1) (net env) (clock env) token in
          let b2 := set_price_cache b1 cache in
          let '(portfolio', outcome) :=
            sell_fill (user_settings b2) (draw env) user_id (now_trade env)
                      portfolio pos info token amount in
          let b3 := set_portfolios b2 (<[user_id := portfolio']> (portfolios b2)) in
          match outcome with
          | Sold _ _ _ _ _ _ => (save_data (write_ok env) b3, outcome)
          | _ => (b3, outcome)
          end
      end
  end.

(** The cap of one [/fund]. *)
Definition fund_cap : Q := 20.

(** The [/fund [amount]] command; without an argument the amount is 1. *)
Definition fund (b : Bot) (env : Env) (user : User) (arg : option Q) : Bot * Outcome :=
  let user_id := uid user in
  match portfolios b !! user_id with
  | None => (b, NoPortfolio)
  | Some portfolio =>
      let amount := default 1 arg in
      if Qgtb amount fund_cap then (b, InvalidAmount) else
      (save_data (write_ok env)
         (set_portfolios b
            (<[user_id := mkPortfolio (balance portfolio + amount)
                            (positions portfolio) (history portfolio)]>
               (portfolios b))),
       Funded amount)
  end.

(** The [/reset] command. *)
Definition reset (b : Bot) (env : Env) (user : User) : Bot :=
  save_data (write_ok env)
    (set_portfolios b (<[uid user := fresh_portfolio]> (portfolios b))).

(** ** Views of the state used in the statements *)

(** The state in which [buy] reads the portfolio: [log_activity] has run
    and the portfolio exists. *)
Definition buy_entry (b : Bot) (env : Env) (user : User) : Bot :=
  ensure_portfolio (write_ok env) (uid user)
    (log_activity user (now_activity env) "buy" b).

(** The quote a handler gets from [get_token_info]. *)
Definition quote (b : Bot) (env : Env) (token : string) : Info.t :=
  (get_token_info (price_cache b) (net env) (clock env) token).1.1.

(** The position that a buy of [tokens] at [exec_price] leaves for the
    token: merged into the position held, or new. *)
Definition bought_position (held : option Position.t) (tokens exec_price : Q)
    (symbol : option string) : Position.t :=
  match held with
  | Some pos =>
      Position.mk (Position.amount pos + tokens)
        ((Position.amount pos * Position.avg_price pos + tokens * exec_price)
         / (Position.amount pos + tokens))
        symbol
  | None => Position.mk tokens exec_price symbol
  end.

(** The positions that a sale of [amount] leaves: the entry is deleted
    when less than 0.0001 token remains. *)
Definition sold_positions (held : gmap string Position.t) (token : string)
    (pos : Position.t) (amount : Q) : gmap string Position.t :=
  if Qltb (Position.amount pos - amount) 0.0001 then delete token held
  else <[token := Position.mk (Position.amount pos - amount)
                    (Position.avg_price pos) (Position.symbol pos)]> held.

(** * A worked scenario

    One user, Alice, with the starting balance of 20 SOL.  SOL is quoted
    at 150 USD; the token is not on Pump.fun, and DexScreener lists two
    pairs for it, the more liquid one at 0.15 USD, that is 0.001 SOL.
    The draw of [random()] is 0, so the slippage applied is nil. *)
Module Scenario.

Definition alice : User := mkUser 7 (Some "alice"%string) (Some "Alice"%string).

Definition token : string := "So1TokenMint".

Definition thin_pair : DexPair :=
  mkDexPair (Some "Token"%string) (Some "TKN"%string) (Some 0.2) None
    (Some 1000) None None (Some "orca"%string) (Some "pairB"%string) None.

Definition deep_pair (usd : Q) : DexPair :=
  mkDexPair (Some "Token"%string) (Some "TKN"%string) (Some usd) (Some 1000000)
    (Some 50000) (Some 1200) (Some 5) (Some "raydium"%string)
    (Some "pairA"%string) (Some 1700000000000%Z).

(** The seconds that [datetime.fromtimestamp] turns into a date of the
    years 1 to 9999. *)
Definition datetime_range (seconds : Q) : bool :=
  Qle_bool (-62135596800) seconds && Qle_bool seconds 253402300799.

(** The providers when the token trades on a DEX at [usd] dollars. *)
Definition dex_net (usd : Q) : Network :=
  mkNetwork true (OK 150) NotOK
    (fun _ => NotOK)
    (fun _ => OK [thin_pair; deep_pair usd])
    (fun _ => NotOK)
    (fun _ => NotOK)
    datetime_range.

(** The providers when nobody knows the token. *)
Definition silent_net : Network :=
  mkNetwork true (OK 150) NotOK
    (fun _ => NotOK) (fun _ => OK []) (fun _ => OK None) (fun _ => OK None)
    datetime_range.

(** The providers while the token is on its Pump.fun bonding curve. *)
Definition curve : PumpCoin :=
  mkPumpCoin true false 30000000000 1000000000000000
    (Some "Token"%string) (Some "TKN"%string) (Value 30) (Some 1700000000000%Z).

Definition pump_net : Network :=
  mkNetwork true (OK 150) NotOK
    (fun _ => OK curve) (fun _ => NotOK) (fun _ => NotOK) (fun _ => NotOK)
    datetime_range.

(** A call entered at [t], which takes a second to stamp the price and
    another to store the result. *)
Definition clock_at (t : Q) : Clock := mkClock t (t + 1) (t + 2).

Definition env_at (n : Network) (t : Q) (u : Q) : Env :=
  mkEnv n (clock_at t) "2024-05-01T10:00:00" "2024-05-01T10:00:02" u true.

(** Alice after [/start]. *)
Definition bot0 : Bot :=
  mkBot {[ 7%Z := fresh_portfolio ]} ∅ ∅ ∅ ∅ None.

(** Alice buys for 5 SOL at 0.001 SOL a token. *)
Definition buy_env : Env := env_at (dex_net 0.15) 100 0.

Definition bot1 : Bot := (buy bot0 buy_env alice token 5).1.

(** Her position after the buy. *)
Definition pos1 : Position.t :=
  let exec_price := (apply_slippage ∅ 0 (0.15 / 150) true 7).1 in
  Position.mk (5 / exec_price) exec_price (Some "TKN"%string).

(** A minute later the token trades at 0.002 SOL and Alice sells all. *)
Definition sell_env : Env := env_at (dex_net 0.3) 160 0.

Definition bot2 : Bot := (sell bot1 sell_env alice token All).1.

(** The surroundings of a call that finds no price. *)
Definition silent_env : Env := env_at silent_net 100 0.

End Scenario.

(** ** The conditions of the Pump.fun branch *)

(** The test under which [get_token_info] takes the Pump.fun price: the
    body has a ['mint'], the curve is not complete, and the virtual token
    reserves are positive. *)
Definition on_bonding_curve (c : PumpCoin) : bool :=
  has_mint c && negb (complete c) && (0 <? virtual_token_reserves c)%Z.

(** The Pump.fun branch runs to its [return]: the market capitalisation
    is not [null], and the creation time, when the body has one that is
    not zero, is in the range of [datetime.fromtimestamp]. *)
Definition pump_returns (fromtimestamp_ok : Q -> bool) (c : PumpCoin) : bool :=
  match pump_market_cap c with
  | Null => false
  | _ =>
      match created_timestamp c with
      | Some ts => (ts =? 0)%Z || fromtimestamp_ok (inject_Z ts / 1000)
      | None => true
      end
  end.

(** * The other handlers *)


Definition set_user_settings (b : Bot) (s : gmap Z Settings) : Bot :=
  mkBot (portfolios b) (watchlists b) s (user_stats b) (price_cache b) (disk b).

(** The [/start] command, up to its reply: the activity is logged and a
    user without a portfolio gets a fresh one. *)
Definition start (b : Bot) (env : Env) (user : User) : Bot :=
  ensure_portfolio (write_ok env) (uid user)
    (log_activity user (now_activity env) "start" b).

(** The callback data of the two trading buttons of the position
    screen: [posbuy_<token>_<amount>] and [possell_<token>_<percentage>]. *)
Inductive PositionAction :=
  | PosBuy (amount : Q)
  | PosSell (percentage : Q).

(** What a button handler ends with: a reply, or the [KeyError] of
    [portfolio['positions'][token]] on a token that is not held. *)
Inductive ButtonOutcome :=
  | Replied (o : Outcome)
  | KeyError.

(** [handle_position_actions] on a [posbuy] or [possell] button.  The
    replies "Portfolio not found" and "Position not found" are
    [NoPortfolio] and [NoSuchPosition].  [posbuy] computes the new
    average before it changes anything, and keeps the symbol of the
    position; [possell] sells the percentage of the amount held, from the
    quote on as [sell] does. *)
Definition handle_position_actions (b : Bot) (env : Env) (user : User)
    (token : string) (action : PositionAction) : Bot * ButtonOutcome :=
  let user_id := uid user in
  match portfolios b !! user_id with
  | None => (b, Replied NoPortfolio)
  | Some portfolio =>
      match action with
      | PosBuy amount =>
          if Qgtb amount (balance portfolio) then (b, Replied InsufficientBalance) else
          let '(info, cache, _) :=
            get_token_info (price_cache b) (net env) (clock env) token in
          let b1 := set_price_cache b cache in
          match Info.price info with
          | None => (b1, Replied QuoteUnavailable)
          | Some price =>
              if negb (truthy price) then (b1, Replied QuoteUnavailable) else
              let '(exec_price, slippage_hit) :=
                apply_slippage (user_settings b1) (draw env) price true user_id in
              match pydiv amount exec_price with
              | None => (b1, Replied ZeroDivisionError)
              | Some tokens =>
                  match positions portfolio !! token with
                  | None => (b1, KeyError)
                  | Some pos =>
                      let old_tokens := Position.amount pos in
                      let old_avg := Position.avg_price pos in
                      let new_total := old_tokens + tokens in
                      match pydiv (old_tokens * old_avg + tokens * exec_price)
                                  new_total with
                      | None => (b1, Replied ZeroDivisionError)
                      | Some new_avg =>
                          let portfolio' :=
                            mkPortfolio (balance portfolio - amount)
                              (<[token := Position.mk new_total new_avg
                                            (Position.symbol pos)]>
                                 (positions portfolio))
                              (history portfolio
                               ++ [Trade.mk BUY token tokens exec_price amount None
                                     (now_trade env)]) in
                          (save_data (write_ok env)
                             (set_portfolios b1
                                (<[user_id := portfolio']> (portfolios b1))),
                           Replied (Bought tokens exec_price slippage_hit))
                      end
                  end
              end
          end
      | PosSell percentage =>
          match positions portfolio !! token with
          | None => (b, Replied NoSuchPosition)
          | Some pos =>
              let amount := Position.amount pos * (percentage / 100) in
              let '(info, cache, _) :=
                get_token_info (price_cache b) (net env) (clock env) token in
              let b1 := set_price_cache b cache in
              let '(portfolio', outcome) :=
                sell_fill (user_settings b1) (draw env) user_id (now_trade env)
                          portfolio pos info token amount in
              let b2 := set_portfolios b1 (<[user_id := portfolio']> (portfolios b1)) in
              match outcome with
              | Sold _ _ _ _ _ _ => (save_data (write_ok env) b2, Replied outcome)
              | _ => (b2, Replied outcome)
              end
          end
      end
  end.



(** The callback data of the settings buttons: [set_reset],
    [set_slip_<value>] ([None] when [float] raises on the value, which
    the handler passes over), or anything else that begins with [set_]. *)
Inductive SettingsAction :=
  | SetReset
  | SetSlip (value : option Q)
  | SetOther.

(** [handle_settings], up to the settings screen that it shows again:
    a user without settings gets the default ones first, and the state
    is saved whatever the button. *)
Definition handle_settings (b : Bot) (env : Env) (user : User)
    (action : SettingsAction) : Bot :=
  let user_id := uid user in
  let current := default (mkSettings (Some 1)) (user_settings b !! user_id) in
  let updated :=
    match action with
    | SetReset => mkSettings (Some 1)
    | SetSlip (Some value) => mkSettings (Some value)
    | SetSlip None => current
    | SetOther => current
    end in
  save_data (write_ok env)
    (set_user_settings b (<[user_id := updated]> (user_settings b))).

(** ** Statistics *)

(** [t.get('profit', 0)]. *)
Definition trade_profit (t : Trade.t) : Q := default 0 (Trade.profit t).

Definition is_buy (t : Trade.t) : bool :=
  match Trade.type t with BUY => true | SELL => false end.

Definition is_sell (t : Trade.t) : bool :=
  match Trade.type t with BUY => false | SELL => true end.

(** The figures that [stats_command] derives from the history. *)
Record TradeStats := mkTradeStats {
  total_trades : nat;
  buys : nat;
  sells : nat;
  winning_trades : nat;
  losing_trades : nat;
  total_profit : Q;
  win_rate : Q
}.

(** [sum(...)] of Python: from 0, left to right. *)
Definition py_sum (l : list Q) : Q := fold_left Qplus l 0.

(** [len(x)] as a float. *)
Definition len {A : Type} (l : list A) : Q := inject_Z (Z.of_nat (length l)).

(** The first part of [stats_command]: trades counted by type, sells by
    the sign of their profit, the realized profit and the win rate. *)
Definition trade_stats (history : list Trade.t) : TradeStats :=
  let buy_trades := List.filter is_buy history in
  let sell_trades := List.filter is_sell history in
  let winning := List.filter (fun t => Qgtb (trade_profit t) 0) sell_trades in
  let losing := List.filter (fun t => Qltb (trade_profit t) 0) sell_trades in
  mkTradeStats (length history) (length buy_trades) (length sell_trades)
    (length winning) (length losing)
    (py_sum (trade_profit <$> sell_trades))
    (match sell_trades with
     | [] => 0
     | _ => len winning / len sell_trades * 100
     end).

(** The price at which [leaderboard] counts a position:
    [token_prices.get(token, pos['avg_price'])], where [token_prices]
    holds the tokens whose quote has a price. *)
Definition resolved_price (price_of : string -> option Q) (token : string)
    (pos : Position.t) : Q :=
  match price_of token with
  | Some price => if truthy price then price else Position.avg_price pos
  | None => Position.avg_price pos
  end.

(** The equity of a portfolio on the leaderboard. *)
Definition equity (price_of : string -> option Q) (data : Portfolio) : Q :=
  fold_left
    (fun total '(token, pos) =>
       total + Position.amount pos * resolved_price price_of token pos)
    (map_to_list (positions data)) (balance data).

(** An entry of [leaderboard_data]. *)
Record Row := mkRow {
  row_user_id : Z;
  row_equity : Q;
  row_pnl_pct : Q
}.

Definition leaderboard_row (price_of : string -> option Q) (item : Z * Portfolio)
    : Row :=
  let total_value := equity price_of item.2 in
  mkRow item.1 total_value ((total_value / starting_balance - 1) * 100).

(** [list.sort(key=equity, reverse=True)]: a stable sort, greatest equity
    first; rows of equal equity keep their order. *)
Fixpoint insert_row (r : Row) (sorted : list Row) : list Row :=
  match sorted with
  | [] => [r]
  | r' :: rest =>
      if Qltb (row_equity r) (row_equity r') then r' :: insert_row r rest
      else r :: r' :: rest
  end.

Definition sort_rows (rows : list Row) : list Row := foldr insert_row [] rows.

(** [leaderboard] on the entries of [portfolios] in the order of the
    dict: [None] is the reply that there are no traders yet, otherwise
    the ten first rows. *)
Definition leaderboard (price_of : string -> option Q) (items : list (Z * Portfolio))
    : option (list Row) :=
  match items with
  | [] => None
  | _ => Some (take 10 (sort_rows (leaderboard_row price_of <$> items)))
  end.

(** The [/history] command: [None] is the reply that there is no history
    yet, otherwise the ten last trades, the latest first. *)
Definition history_command (b : Bot) (user : User) : option (list Trade.t) :=
  match portfolios b !! uid user with
  | None => None
  | Some data =>
      match history data with
      | [] => None
      | trades => Some (reverse (drop (length trades - 10) trades))
      end
  end.

(** Every amount held is at least the 0.0001 token under which a sale
    deletes the position. *)
Definition dust_free (held : gmap string Position.t) : Prop :=
  forall token pos, held !! token = Some pos -> 0.0001 <= Position.amount pos.

(** The order of the leaderboard: [r] stands before [r'] when its
    equity is not smaller. *)
Definition richer (r r' : Row) : Prop := row_equity r' <= row_equity r.

(** The price of a position when no quote has a price: its average
    cost. *)
Definition at_cost : string -> option Q := fun _ => None.

(** * More of the scenario *)
Module Scenario2.
Import Scenario.

(** Bob, who has not sent [/start]. *)
Definition bob : User := mkUser 8 (Some "bob"%string) None.

(** A file with a key that is not a number. *)
Definition corrupt_doc : Document :=
  mkDocument (Some [("7"%string, fresh_portfolio); ("seven"%string, fresh_portfolio)])
    (Some [("7"%string, [token])]) None None.


(** The providers when neither Jupiter nor DexScreener has the SOL
    price. *)
Definition no_sol_net : Network :=
  mkNetwork true NotOK NotOK
    (fun _ => NotOK) (fun _ => OK [thin_pair; deep_pair 0.15])
    (fun _ => OK (Some (Some 0.15))) (fun _ => OK (Some 0.15))
    datetime_range.

(** The providers when Birdeye alone knows the token. *)
Definition birdeye_net : Network :=
  mkNetwork true (OK 150) NotOK
    (fun _ => NotOK) (fun _ => OK []) (fun _ => OK None) (fun _ => OK (Some 0.15))
    datetime_range.

(** Alice with the file of the corrupt document. *)
Definition corrupt_bot : Bot := set_disk bot0 (Some corrupt_doc).

(** The entries of [portfolios] when Bob has joined after Alice's first
    buy, and the leaderboard without any price. *)
Definition two_traders : list (Z * Portfolio) :=
  [(8%Z, fresh_portfolio); (7%Z, portfolio_of bot1 7)].

Definition board : list Row := default [] (leaderboard at_cost two_traders).

(** Twelve traders without positions, in the order in which they
    joined, and the leaderboard of them. *)
Definition many_traders : list (Z * Portfolio) :=
  (fun '(user_id, sol) => (user_id, mkPortfolio sol ∅ [])) <$>
  [(1%Z, 12); (2%Z, 27); (3%Z, 3); (4%Z, 20); (5%Z, 45); (6%Z, 8);
   (7%Z, 31); (8%Z, 16); (9%Z, 5); (10%Z, 22); (11%Z, 38); (12%Z, 1)].

Definition top_ten : list Row := default [] (leaderboard at_cost many_traders).

(** The surroundings two hundred seconds in, when the quote cached by
    Alice's first buy has expired and nobody knows the token. *)
Definition quiet_env : Env := env_at silent_net 200 0.

(** Alice after a buy of -5 SOL a minute after her first buy, at
    0.002 SOL: 2500 tokens are left, at an average price of zero. *)
Definition bot_flat : Bot := (buy bot1 sell_env alice token (-5)).1.

(** The surroundings of a sale after that, the token still at
    0.002 SOL. *)
Definition late_env : Env := env_at (dex_net 0.3) 200 0.

(** A coin on its bonding curve whose creation time, 1e18 ms, is beyond
    the year 9999, and one whose market capitalisation is [null]. *)
Definition far_curve : PumpCoin :=
  mkPumpCoin true false 30000000000 1000000000000000
    (Some "Token"%string) (Some "TKN"%string) (Value 30)
    (Some 1000000000000000000%Z).

Definition null_cap_curve : PumpCoin :=
  mkPumpCoin true false 30000000000 1000000000000000
    (Some "Token"%string) (Some "TKN"%string) Null (Some 1700000000000%Z).

(** The providers for such a coin: Pump.fun answers with [c], and
    DexScreener lists no pair. *)
Definition raising_net (c : PumpCoin) : Network :=
  mkNetwork true (OK 150) NotOK
    (fun _ => OK c) (fun _ => OK []) (fun _ => NotOK) (fun _ => NotOK)
    datetime_range.

End Scenario2.

(** * Properties *)

(** Closed goals on the scenario: evaluate, then conclude. *)
Ltac evaluate :=
  vm_compute; first [reflexivity | congruence | intuition congruence].

(** A request that none of the list repeats. *)
Ltac distinct_request :=
  rewrite ?not_elem_of_cons; repeat split; try discriminate; apply not_elem_of_nil.

(** ** Comparisons and division *)

Lemma Qltb_true (x y : Q) : Qltb x y = true <-> x < y.
Proof.
  unfold Qltb. rewrite negb_true_iff, <- not_true_iff_false, Qle_bool_iff.
  split; [apply Qnot_le_lt | apply Qlt_not_le].
Qed.

Lemma Qltb_false (x y : Q) : Qltb x y = false <-> y <= x.
Proof.
  unfold Qltb. rewrite negb_false_iff. apply Qle_bool_iff.
Qed.

Lemma Qgtb_false (x y : Q) : Qgtb x y = false <-> x <= y.
Proof. apply Qltb_false. Qed.

Lemma truthy_true (x : Q) : truthy x = true <-> ~ x == 0.
Proof.
  unfold truthy. rewrite negb_true_iff, <- not_true_iff_false, Qeq_bool_iff.
  tauto.
Qed.

Lemma pydiv_nonzero (x y : Q) : ~ y == 0 -> pydiv x y = Some (x / y).
Proof.
  intros Hy. unfold pydiv.
  destruct (Qeq_bool y 0) eqn:E; [|reflexivity].
  apply Qeq_bool_iff in E. contradiction.
Qed.

Lemma pydiv_Some (x y q : Q) : pydiv x y = Some q -> q = x / y /\ ~ y == 0.
Proof.
  unfold pydiv. destruct (Qeq_bool y 0) eqn:E; [discriminate|].
  intros [= <-]. split; [reflexivity|].
  intros Hy. apply Qeq_bool_iff in Hy. congruence.
Qed.

(** ** Slippage *)

Lemma uniform_from_zero (b u : Q) : uniform 0 b u == b * u.
Proof. unfold uniform. ring. Qed.

Lemma impact_range (tol u : Q) :
  0 <= tol -> 0 <= u -> u < 1 ->
  0 <= uniform 0 (tol / 100) u /\ uniform 0 (tol / 100) u * 100 <= tol.
Proof.
  intros Htol Hu0 Hu1.
  assert (Hi : uniform 0 (tol / 100) u * 100 == tol * u)
    by (unfold uniform; field).
  assert (Hp : 0 <= tol * u) by (apply Qmult_le_0_compat; assumption).
  split.
  - rewrite uniform_from_zero.
    apply Qmult_le_0_compat; [|assumption].
    apply Qle_shift_div_l; [reflexivity|]. lra.
  - rewrite Hi. nra.
Qed.

(** C7. For a base price [p > 0] and a tolerance [tol >= 0] (the user's
    slippage setting), whatever the draw of [random()] in [[0, 1)], the
    execution price of a buy is at least [p], the execution price of a
    sell is at most [p], and the percentage reported lies in [[0, tol]]. *)
Theorem apply_slippage_bounds (settings : gmap Z Settings) (user_id : Z) (p u : Q) :
  0 < p -> 0 <= slippage_pct settings user_id -> 0 <= u -> u < 1 ->
  p <= (apply_slippage settings u p true user_id).1 /\
  (apply_slippage settings u p false user_id).1 <= p /\
  forall is_buy : bool,
    0 <= (apply_slippage settings u p is_buy user_id).2 /\
    (apply_slippage settings u p is_buy user_id).2 <= slippage_pct settings user_id.
Proof.
  intros Hp Htol Hu0 Hu1.
  destruct (impact_range _ _ Htol Hu0 Hu1) as [Hi0 Hi1].
  unfold apply_slippage. cbn [fst snd].
  set (impact := uniform 0 (slippage_pct settings user_id / 100) u) in *.
  assert (Hpi : 0 <= p * impact) by (apply Qmult_le_0_compat; lra).
  repeat split.
  - lra.
  - lra.
  - lra.
  - assumption.
Qed.

(** The bounds at the default tolerance of 1 percent, a price of 0.001
    SOL and a draw of one half. *)
Lemma apply_slippage_bounds_witness :
  0.001 <= (apply_slippage ∅ 0.5 0.001 true 7%Z).1 /\
  (apply_slippage ∅ 0.5 0.001 false 7%Z).1 <= 0.001 /\
  forall is_buy : bool,
    0 <= (apply_slippage ∅ 0.5 0.001 is_buy 7%Z).2 /\
    (apply_slippage ∅ 0.5 0.001 is_buy 7%Z).2 <= slippage_pct ∅ 7%Z.
Proof.
  apply (apply_slippage_bounds ∅ 7%Z 0.001 0.5); vm_compute; congruence.
Defined.

(** ** What the handlers leave alone *)

Lemma portfolios_save_data (w : bool) (b : Bot) :
  portfolios (save_data w b) = portfolios b.
Proof. destruct w; reflexivity. Qed.

Lemma price_cache_save_data (w : bool) (b : Bot) :
  price_cache (save_data w b) = price_cache b.
Proof. destruct w; reflexivity. Qed.

Lemma user_settings_save_data (w : bool) (b : Bot) :
  user_settings (save_data w b) = user_settings b.
Proof. destruct w; reflexivity. Qed.

Lemma price_cache_ensure_portfolio (w : bool) (user_id : Z) (b : Bot) :
  price_cache (ensure_portfolio w user_id b) = price_cache b.
Proof.
  unfold ensure_portfolio. destruct (portfolios b !! user_id); [reflexivity|].
  rewrite price_cache_save_data. reflexivity.
Qed.

Lemma user_settings_ensure_portfolio (w : bool) (user_id : Z) (b : Bot) :
  user_settings (ensure_portfolio w user_id b) = user_settings b.
Proof.
  unfold ensure_portfolio. destruct (portfolios b !! user_id); [reflexivity|].
  rewrite user_settings_save_data. reflexivity.
Qed.

Lemma lookup_ensure_portfolio (w : bool) (user_id : Z) (b : Bot) :
  portfolios (ensure_portfolio w user_id b) !! user_id = Some (portfolio_of b user_id).
Proof.
  unfold ensure_portfolio, portfolio_of.
  destruct (portfolios b !! user_id) eqn:E; cbn.
  - exact E.
  - rewrite portfolios_save_data. cbn. apply lookup_insert_eq.
Qed.

Lemma portfolios_ensure_portfolio_held (w : bool) (user_id : Z) (b : Bot) :
  is_Some (portfolios b !! user_id) ->
  portfolios (ensure_portfolio w user_id b) = portfolios b.
Proof.
  intros [pf E]. unfold ensure_portfolio. rewrite E. reflexivity.
Qed.

Lemma portfolio_of_buy_entry (b : Bot) (env : Env) (user : User) :
  portfolio_of (buy_entry b env user) (uid user) = portfolio_of b (uid user).
Proof.
  unfold buy_entry. unfold portfolio_of at 1.
  rewrite lookup_ensure_portfolio. reflexivity.
Qed.

Lemma lookup_buy_entry (b : Bot) (env : Env) (user : User) :
  portfolios (buy_entry b env user) !! uid user = Some (portfolio_of b (uid user)).
Proof.
  exact (lookup_ensure_portfolio (write_ok env) (uid user)
           (log_activity user (now_activity env) "buy" b)).
Qed.

Lemma portfolios_buy_entry_held (b : Bot) (env : Env) (user : User) :
  is_Some (portfolios b !! uid user) ->
  portfolios (buy_entry b env user) = portfolios b.
Proof.
  intros H. unfold buy_entry. rewrite portfolios_ensure_portfolio_held; [reflexivity|].
  exact H.
Qed.

Lemma price_cache_buy_entry (b : Bot) (env : Env) (user : User) :
  price_cache (buy_entry b env user) = price_cache b.
Proof. unfold buy_entry. rewrite price_cache_ensure_portfolio. reflexivity. Qed.

Lemma user_settings_buy_entry (b : Bot) (env : Env) (user : User) :
  user_settings (buy_entry b env user) = user_settings b.
Proof. unfold buy_entry. rewrite user_settings_ensure_portfolio. reflexivity. Qed.

(** [buy] once the balance check has passed: the outcome and the
    portfolio are those of [buy_fill] on the quote. *)
Lemma buy_passes_balance_check (b : Bot) (env : Env) (user : User) (token : string)
    (sol_amount : Q) :
  Qgtb sol_amount (balance (portfolio_of b (uid user))) = false ->
  let filled :=
    buy_fill (user_settings b) (draw env) (uid user) (now_trade env)
             (portfolio_of b (uid user)) (quote b env token) token sol_amount in
  (buy b env user token sol_amount).2 = filled.2 /\
  portfolios (buy b env user token sol_amount).1
  = <[uid user := filled.1]> (portfolios (buy_entry b env user)).
Proof.
  intros Hbal. unfold buy, quote.
  fold (buy_entry b env user).
  rewrite portfolio_of_buy_entry, Hbal, price_cache_buy_entry.
  destruct (get_token_info (price_cache b) (net env) (clock env) token)
    as [[info cache] reqs].
  cbn [fst snd set_price_cache user_settings portfolios].
  rewrite user_settings_buy_entry.
  destruct (buy_fill (user_settings b) (draw env) (uid user) (now_trade env)
              (portfolio_of b (uid user)) info token sol_amount) as [pf' out].
  destruct out; cbn [fst snd]; rewrite ?portfolios_save_data; split; reflexivity.
Qed.

(** [buy] when the balance check fails. *)
Lemma buy_fails_balance_check (b : Bot) (env : Env) (user : User) (token : string)
    (sol_amount : Q) :
  Qgtb sol_amount (balance (portfolio_of b (uid user))) = true ->
  buy b env user token sol_amount = (buy_entry b env user, InsufficientBalance).
Proof.
  intros Hbal. unfold buy. fold (buy_entry b env user).
  rewrite portfolio_of_buy_entry, Hbal. reflexivity.
Qed.

(** ** Buying *)

(** What a completed [buy_fill] has done. *)
Lemma buy_fill_Bought (settings : gmap Z Settings) (u : Q) (user_id : Z) (now : string)
    (pf pf' : Portfolio) (info : Info.t) (token : string)
    (sol_amount tokens exec_price hit : Q) :
  buy_fill settings u user_id now pf info token sol_amount
  = (pf', Bought tokens exec_price hit) ->
  exists price,
    Info.price info = Some price /\ truthy price = true /\
    apply_slippage settings u price true user_id = (exec_price, hit) /\
    pydiv sol_amount exec_price = Some tokens /\
    balance pf' = balance pf - sol_amount /\
    history pf'
    = history pf ++ [Trade.mk BUY token tokens exec_price sol_amount None now] /\
    positions pf'
    = <[token := bought_position (positions pf !! token) tokens exec_price
                   (Info.symbol info)]> (positions pf) /\
    forall pos, positions pf !! token = Some pos ->
                ~ Position.amount pos + tokens == 0.
Proof.
  unfold buy_fill.
  destruct (Info.price info) as [price|]; [|discriminate].
  destruct (truthy price) eqn:Ht; [|discriminate]. cbn [negb].
  destruct (apply_slippage settings u price true user_id) as [e h] eqn:Hs.
  destruct (pydiv sol_amount e) as [t|] eqn:Hd; [|discriminate].
  destruct (positions pf !! token) as [pos|] eqn:Hpos.
  - destruct (pydiv _ (Position.amount pos + t)) as [avg|] eqn:Havg; [|discriminate].
    intros [= <- <- <- <-]. exists price.
    apply pydiv_Some in Havg as [-> Hnz].
    repeat split; try reflexivity; try assumption.
    intros pos' [= <-]. exact Hnz.
  - intros [= <- <- <- <-]. exists price.
    repeat split; try reflexivity; try assumption.
    intros pos' [=].
Qed.

(** When [buy_fill] completes: a price is quoted, the execution price
    is not zero, and the position held, if any, does not end at zero. *)
Lemma buy_fill_completes (settings : gmap Z Settings) (u : Q) (user_id : Z)
    (now : string) (pf : Portfolio) (info : Info.t) (token : string)
    (sol_amount price : Q) :
  Info.price info = Some price -> ~ price == 0 ->
  let exec_price := (apply_slippage settings u price true user_id).1 in
  let tokens := sol_amount / exec_price in
  ~ exec_price == 0 ->
  (forall pos, positions pf !! token = Some pos ->
               ~ Position.amount pos + tokens == 0) ->
  buy_fill settings u user_id now pf info token sol_amount
  = (mkPortfolio (balance pf - sol_amount)
       (<[token := bought_position (positions pf !! token) tokens exec_price
                     (Info.symbol info)]> (positions pf))
       (history pf ++ [Trade.mk BUY token tokens exec_price sol_amount None now]),
     Bought tokens exec_price (apply_slippage settings u price true user_id).2).
Proof.
  intros Hprice Hp exec_price tokens Hexec Htotal.
  unfold buy_fill. rewrite Hprice.
  apply truthy_true in Hp. rewrite Hp. cbn [negb].
  destruct (apply_slippage settings u price true user_id) as [e h] eqn:Hs.
  cbn [fst snd] in *. subst exec_price.
  rewrite (pydiv_nonzero _ _ Hexec). fold tokens.
  destruct (positions pf !! token) as [pos|] eqn:Hpos; [|reflexivity].
  rewrite (pydiv_nonzero _ _ (Htotal pos eq_refl)). reflexivity.
Qed.

(** A completed [buy]: the checks it passed and the portfolio it leaves. *)
Lemma buy_Bought (b b' : Bot) (env : Env) (user : User) (token : string)
    (sol_amount tokens exec_price hit : Q) :
  buy b env user token sol_amount = (b', Bought tokens exec_price hit) ->
  let pf := portfolio_of b (uid user) in
  sol_amount <= balance pf /\
  exists pf',
    portfolios b' !! uid user = Some pf' /\
    buy_fill (user_settings b) (draw env) (uid user) (now_trade env) pf
             (quote b env token) token sol_amount
    = (pf', Bought tokens exec_price hit).
Proof.
  intros Hbuy pf.
  destruct (Qgtb sol_amount (balance pf)) eqn:Hbal.
  - rewrite (buy_fails_balance_check _ _ _ _ _ Hbal) in Hbuy. discriminate.
  - destruct (buy_passes_balance_check b env user token sol_amount Hbal)
      as [Hout Hpfs].
    rewrite Hbuy in Hout, Hpfs. cbn [fst snd] in Hout, Hpfs.
    split; [apply Qgtb_false; exact Hbal|].
    eexists. split.
    + rewrite Hpfs. apply lookup_insert_eq.
    + fold pf in Hout. rewrite Hout. apply surjective_pairing.
Qed.

(** C1. A buy that succeeds leaves the balance at the balance before
    minus the requested SOL amount, whatever the execution price that the
    slippage produced; such a buy passed the balance check and had a
    price quoted.  The balance before is that of the user's portfolio, or
    the starting balance when the command creates the portfolio. *)
Theorem buy_debits_requested_amount (b b' : Bot) (env : Env) (user : User)
    (token : string) (sol_amount tokens exec_price hit : Q) :
  buy b env user token sol_amount = (b', Bought tokens exec_price hit) ->
  sol_amount <= balance (portfolio_of b (uid user)) /\
  has_price (Info.price (quote b env token)) = true /\
  exists pf',
    portfolios b' !! uid user = Some pf' /\
    balance pf' = balance (portfolio_of b (uid user)) - sol_amount.
Proof.
  intros Hbuy.
  destruct (buy_Bought _ _ _ _ _ _ _ _ _ Hbuy) as (Hle & pf' & Hpf' & Hfill).
  destruct (buy_fill_Bought _ _ _ _ _ _ _ _ _ _ _ _ Hfill)
    as (price & Hprice & Ht & _ & _ & Hbalance & _).
  split; [exact Hle|]. split.
  - rewrite Hprice. exact Ht.
  - exists pf'. split; assumption.
Qed.

(** C2. A buy of a token already held leaves the position at the amount
    [old + tokens] and at the average cost
    [(old * old_avg + tokens * exec_price) / (old + tokens)], where
    [tokens] is the requested amount over the execution price, itself the
    slippage model's price for a buy; neither divisor is zero. *)
Theorem buy_weighted_average_cost (b b' : Bot) (env : Env) (user : User)
    (token : string) (sol_amount tokens exec_price hit : Q) (pos : Position.t) :
  buy b env user token sol_amount = (b', Bought tokens exec_price hit) ->
  positions (portfolio_of b (uid user)) !! token = Some pos ->
  let old := Position.amount pos in
  let old_avg := Position.avg_price pos in
  (exists price,
     Info.price (quote b env token) = Some price /\
     apply_slippage (user_settings b) (draw env) price true (uid user)
     = (exec_price, hit)) /\
  tokens = sol_amount / exec_price /\
  ~ exec_price == 0 /\ ~ old + tokens == 0 /\
  exists pf' pos',
    portfolios b' !! uid user = Some pf' /\
    positions pf' !! token = Some pos' /\
    Position.amount pos' = old + tokens /\
    Position.avg_price pos'
    = (old * old_avg + tokens * exec_price) / (old + tokens).
Proof.
  intros Hbuy Hpos old old_avg.
  destruct (buy_Bought _ _ _ _ _ _ _ _ _ Hbuy) as (_ & pf' & Hpf' & Hfill).
  destruct (buy_fill_Bought _ _ _ _ _ _ _ _ _ _ _ _ Hfill)
    as (price & Hprice & _ & Hslip & Hdiv & _ & _ & Hpositions & Hnz).
  apply pydiv_Some in Hdiv as [Htokens Hexec].
  split; [exists price; split; assumption|].
  repeat split; try assumption.
  - exact (Hnz pos Hpos).
  - exists pf'. eexists. split; [exact Hpf'|]. split.
    + rewrite Hpositions. apply lookup_insert_eq.
    + rewrite Hpos. split; reflexivity.
Qed.

Lemma buy_fill_no_price (settings : gmap Z Settings) (u : Q) (user_id : Z)
    (now : string) (pf : Portfolio) (info : Info.t) (token : string) (sol_amount : Q) :
  has_price (Info.price info) = false ->
  buy_fill settings u user_id now pf info token sol_amount = (pf, QuoteUnavailable).
Proof.
  unfold buy_fill, has_price.
  destruct (Info.price info) as [price|]; [|reflexivity].
  intros ->. reflexivity.
Qed.

(** C8. A buy that passes the balance check and gets no price (the quote
    has [None] or zero for its price) answers [QuoteUnavailable], and
    leaves every portfolio as [buy] found it: the user's own is the one
    held before (or the fresh one of a first contact), with the same
    balance, positions and history. *)
Theorem buy_quote_unavailable (b : Bot) (env : Env) (user : User) (token : string)
    (sol_amount : Q) :
  sol_amount <= balance (portfolio_of b (uid user)) ->
  has_price (Info.price (quote b env token)) = false ->
  (buy b env user token sol_amount).2 = QuoteUnavailable /\
  portfolios (buy b env user token sol_amount).1 = portfolios (buy_entry b env user) /\
  portfolios (buy b env user token sol_amount).1 !! uid user
  = Some (portfolio_of b (uid user)) /\
  (is_Some (portfolios b !! uid user) ->
   portfolios (buy b env user token sol_amount).1 = portfolios b).
Proof.
  intros Hle Hnone.
  apply Qgtb_false in Hle.
  destruct (buy_passes_balance_check b env user token sol_amount Hle) as [Hout Hpfs].
  rewrite (buy_fill_no_price _ _ _ _ _ _ _ _ Hnone) in Hout, Hpfs.
  cbn [fst snd] in Hout, Hpfs.
  assert (Hsame : portfolios (buy b env user token sol_amount).1
                  = portfolios (buy_entry b env user)).
  { rewrite Hpfs. apply insert_id, lookup_buy_entry. }
  repeat split.
  - exact Hout.
  - exact Hsame.
  - rewrite Hsame. apply lookup_buy_entry.
  - intros Hheld. rewrite Hsame. apply portfolios_buy_entry_held. exact Hheld.
Qed.

(** The execution price of a buy is positive for a positive quote, a
    tolerance that is not negative and a draw of [[0, 1)]. *)
Lemma buy_exec_price_positive (settings : gmap Z Settings) (user_id : Z) (p u : Q) :
  0 < p -> 0 <= slippage_pct settings user_id -> 0 <= u -> u < 1 ->
  0 < (apply_slippage settings u p true user_id).1.
Proof.
  intros Hp Htol Hu0 Hu1.
  destruct (impact_range _ _ Htol Hu0 Hu1) as [Hi0 _].
  unfold apply_slippage. cbn [fst].
  apply Qmult_lt_0_compat; lra.
Qed.

(** C10, as amended. [buy] has no lower bound on the amount.  With a
    positive price quoted (and a tolerance and draw in their ranges),
    every amount that does not exceed the balance, zero and negative
    ones included, is bought, unless it brings a position held to
    exactly zero tokens: the balance becomes the balance minus the
    amount, hence greater for a negative amount; a BUY trade of
    [amount / exec_price] tokens is appended, a number that is not
    positive when the amount is not; and the position is that number of
    tokens at the execution price, or the position held merged with
    it. *)
Theorem buy_has_no_lower_bound (b : Bot) (env : Env) (user : User) (token : string)
    (sol_amount p : Q) :
  let pf := portfolio_of b (uid user) in
  let exec_price :=
    (apply_slippage (user_settings b) (draw env) p true (uid user)).1 in
  let tokens := sol_amount / exec_price in
  sol_amount <= balance pf ->
  Info.price (quote b env token) = Some p -> 0 < p ->
  0 <= slippage_pct (user_settings b) (uid user) ->
  0 <= draw env -> draw env < 1 ->
  (forall pos, positions pf !! token = Some pos ->
               ~ Position.amount pos + tokens == 0) ->
  exists hit pf',
    (buy b env user token sol_amount).2 = Bought tokens exec_price hit /\
    portfolios (buy b env user token sol_amount).1 !! uid user = Some pf' /\
    balance pf' = balance pf - sol_amount /\
    (sol_amount < 0 -> balance pf < balance pf') /\
    history pf'
    = history pf
      ++ [Trade.mk BUY token tokens exec_price sol_amount None (now_trade env)] /\
    (sol_amount <= 0 -> tokens <= 0) /\
    positions pf' !! token
    = Some (bought_position (positions pf !! token) tokens exec_price
              (Info.symbol (quote b env token))).
Proof.
  intros pf exec_price tokens Hle Hprice Hp Htol Hu0 Hu1 Htotal. subst pf.
  assert (Hexec : 0 < exec_price)
    by (apply buy_exec_price_positive; assumption).
  apply Qgtb_false in Hle.
  destruct (buy_passes_balance_check b env user token sol_amount Hle) as [Hout Hpfs].
  rewrite (buy_fill_completes _ _ _ (now_trade env) _ _ token sol_amount p Hprice)
    in Hout, Hpfs; try assumption.
  2, 4: intros H0; rewrite H0 in Hp; revert Hp; apply Qlt_irrefl.
  2, 3: fold exec_price; intros H0; rewrite H0 in Hexec; revert Hexec; apply Qlt_irrefl.
  cbn [fst snd] in Hout, Hpfs. fold exec_price tokens in Hout, Hpfs.
  eexists. eexists. split; [exact Hout|]. split.
  { rewrite Hpfs. apply lookup_insert_eq. }
  cbn [balance history positions].
  repeat split.
  - intros Hneg. lra.
  - intros Hnonpos. unfold tokens.
    apply Qle_shift_div_r; [exact Hexec|]. lra.
  - apply lookup_insert_eq.
Qed.

(** ** Selling *)

(** [sell] once the position is found and covers the amount: the outcome
    and the portfolio are those of [sell_fill] on the quote. *)
Lemma sell_reaches_fill (b : Bot) (env : Env) (user : User) (token : string)
    (sel : Selector) (pf : Portfolio) (pos : Position.t) :
  portfolios b !! uid user = Some pf ->
  positions pf !! token = Some pos ->
  Qgtb (selected_amount sel pos) (Position.amount pos) = false ->
  let filled :=
    sell_fill (user_settings b) (draw env) (uid user) (now_trade env) pf pos
              (quote b env token) token (selected_amount sel pos) in
  (sell b env user token sel).2 = filled.2 /\
  portfolios (sell b env user token sel).1 = <[uid user := filled.1]> (portfolios b).
Proof.
  intros Hpf Hpos Hcov. unfold sell, quote.
  cbn [log_activity set_user_stats portfolios price_cache].
  rewrite Hpf, Hpos, Hcov.
  destruct (get_token_info (price_cache b) (net env) (clock env) token)
    as [[info cache] reqs].
  cbn [fst snd log_activity set_user_stats set_price_cache user_settings portfolios].
  destruct (sell_fill (user_settings b) (draw env) (uid user) (now_trade env)
              pf pos info token (selected_amount sel pos)) as [pf' out].
  destruct out; cbn [fst snd]; rewrite ?portfolios_save_data; split; reflexivity.
Qed.

(** What a completed [sell_fill] has done. *)
Lemma sell_fill_Sold (settings : gmap Z Settings) (u : Q) (user_id : Z) (now : string)
    (pf pf' : Portfolio) (pos : Position.t) (info : Info.t) (token : string)
    (amount a exec_price sol_amount profit profit_pct hit : Q) :
  sell_fill settings u user_id now pf pos info token amount
  = (pf', Sold a exec_price sol_amount profit profit_pct hit) ->
  exists price,
    Info.price info = Some price /\ truthy price = true /\
    apply_slippage settings u price false user_id = (exec_price, hit) /\
    a = amount /\
    sol_amount = amount * exec_price /\
    profit = (exec_price - Position.avg_price pos) * amount /\
    ~ Position.avg_price pos == 0 /\
    balance pf' = balance pf + amount * exec_price /\
    history pf'
    = history pf
      ++ [Trade.mk SELL token amount exec_price (amount * exec_price)
            (Some ((exec_price - Position.avg_price pos) * amount)) now] /\
    positions pf' = sold_positions (positions pf) token pos amount.
Proof.
  unfold sell_fill.
  destruct (Info.price info) as [price|]; [|discriminate].
  destruct (truthy price) eqn:Ht; [|discriminate]. cbn [negb].
  destruct (apply_slippage settings u price false user_id) as [e h] eqn:Hs.
  destruct (pydiv e (Position.avg_price pos)) as [ratio|] eqn:Hd; [|discriminate].
  intros [= <- <- <- <- <- <- <-]. exists price.
  apply pydiv_Some in Hd as [_ Havg].
  repeat split; try reflexivity; assumption.
Qed.

(** When [sell_fill] completes: a price is quoted and the average price
    of the position, by which [profit_pct] divides, is not zero. *)
Lemma sell_fill_completes (settings : gmap Z Settings) (u : Q) (user_id : Z)
    (now : string) (pf : Portfolio) (pos : Position.t) (info : Info.t)
    (token : string) (amount price : Q) :
  Info.price info = Some price -> ~ price == 0 ->
  ~ Position.avg_price pos == 0 ->
  let exec_price := (apply_slippage settings u price false user_id).1 in
  let avg_price := Position.avg_price pos in
  sell_fill settings u user_id now pf pos info token amount
  = (mkPortfolio (balance pf + amount * exec_price)
       (sold_positions (positions pf) token pos amount)
       (history pf
        ++ [Trade.mk SELL token amount exec_price (amount * exec_price)
              (Some ((exec_price - avg_price) * amount)) now]),
     Sold amount exec_price (amount * exec_price) ((exec_price - avg_price) * amount)
       ((exec_price / avg_price - 1) * 100)
       (apply_slippage settings u price false user_id).2).
Proof.
  intros Hprice Hp Havg exec_price avg_price.
  unfold sell_fill. rewrite Hprice.
  apply truthy_true in Hp. rewrite Hp. cbn [negb].
  destruct (apply_slippage settings u price false user_id) as [e h] eqn:Hs.
  cbn [fst snd] in *. subst exec_price avg_price.
  rewrite (pydiv_nonzero _ _ Havg). reflexivity.
Qed.

(** A completed [sell]: the checks it passed and the portfolio it leaves. *)
Lemma sell_Sold (b b' : Bot) (env : Env) (user : User) (token : string)
    (sel : Selector) (a exec_price sol_amount profit profit_pct hit : Q) :
  sell b env user token sel = (b', Sold a exec_price sol_amount profit profit_pct hit) ->
  exists pf pos pf',
    portfolios b !! uid user = Some pf /\
    positions pf !! token = Some pos /\
    selected_amount sel pos <= Position.amount pos /\
    portfolios b' !! uid user = Some pf' /\
    sell_fill (user_settings b) (draw env) (uid user) (now_trade env) pf pos
              (quote b env token) token (selected_amount sel pos)
    = (pf', Sold a exec_price sol_amount profit profit_pct hit).
Proof.
  intros Hsell.
  destruct (portfolios b !! uid user) as [pf|] eqn:Hpf.
  2: { unfold sell in Hsell.
       cbn [log_activity set_user_stats portfolios] in Hsell.
       rewrite Hpf in Hsell. discriminate. }
  destruct (positions pf !! token) as [pos|] eqn:Hpos.
  2: { unfold sell in Hsell.
       cbn [log_activity set_user_stats portfolios] in Hsell.
       rewrite Hpf, Hpos in Hsell. discriminate. }
  destruct (Qgtb (selected_amount sel pos) (Position.amount pos)) eqn:Hcov.
  { unfold sell in Hsell.
    cbn [log_activity set_user_stats portfolios] in Hsell.
    rewrite Hpf, Hpos, Hcov in Hsell. discriminate. }
  destruct (sell_reaches_fill b env user token sel pf pos Hpf Hpos Hcov)
    as [Hout Hpfs].
  rewrite Hsell in Hout, Hpfs. cbn [fst snd] in Hout, Hpfs.
  exists pf, pos. eexists.
  split; [reflexivity|]. split; [exact Hpos|].
  split; [apply Qgtb_false; exact Hcov|]. split.
  - rewrite Hpfs. apply lookup_insert_eq.
  - rewrite Hout. apply surjective_pairing.
Qed.

(** C3. A successful sell of the amount [a] of a position held at the
    average cost [avg] credits the balance with [a * exec_price], where
    [exec_price] is the slippage model's price for a sell; the SELL trade
    appended records the profit [(exec_price - avg) * a]; the position
    keeps [amount - a] tokens at the same average cost, and its entry is
    deleted when that residual is below 0.0001. *)
Theorem sell_accounting (b b' : Bot) (env : Env) (user : User) (token : string)
    (sel : Selector) (a exec_price sol_amount profit profit_pct hit : Q) :
  sell b env user token sel = (b', Sold a exec_price sol_amount profit profit_pct hit) ->
  exists pf pos pf' price,
    portfolios b !! uid user = Some pf /\
    positions pf !! token = Some pos /\
    a = selected_amount sel pos /\
    Info.price (quote b env token) = Some price /\
    apply_slippage (user_settings b) (draw env) price false (uid user)
    = (exec_price, hit) /\
    portfolios b' !! uid user = Some pf' /\
    balance pf' = balance pf + a * exec_price /\
    history pf'
    = history pf
      ++ [Trade.mk SELL token a exec_price (a * exec_price)
            (Some ((exec_price - Position.avg_price pos) * a)) (now_trade env)] /\
    (Position.amount pos - a < 0.0001 -> positions pf' !! token = None) /\
    (0.0001 <= Position.amount pos - a ->
     positions pf' !! token
     = Some (Position.mk (Position.amount pos - a) (Position.avg_price pos)
               (Position.symbol pos))).
Proof.
  intros Hsell.
  destruct (sell_Sold _ _ _ _ _ _ _ _ _ _ _ _ Hsell)
    as (pf & pos & pf' & Hpf & Hpos & _ & Hpf' & Hfill).
  destruct (sell_fill_Sold _ _ _ _ _ _ _ _ _ _ _ _ _ _ _ _ Hfill)
    as (price & Hprice & _ & Hslip & -> & _ & _ & _ & Hbal & Hhist & Hposs).
  exists pf, pos, pf', price.
  repeat split; try assumption.
  - intros Hlt. rewrite Hposs. unfold sold_positions.
    apply Qltb_true in Hlt. rewrite Hlt. apply lookup_delete_eq.
  - intros Hge. rewrite Hposs. unfold sold_positions.
    apply Qltb_false in Hge. rewrite Hge. apply lookup_insert_eq.
Qed.

(** C6, as amended. Selling a held token with the [all] selector goes
    through when a price is quoted for the token and the average price
    of the position, by which the handler divides, is not zero; the
    portfolio then has no entry for the token.  (The amount held is a
    rational, hence a finite number.) *)
Theorem sell_all_removes_position (b : Bot) (env : Env) (user : User)
    (token : string) (pf : Portfolio) (pos : Position.t) (price : Q) :
  portfolios b !! uid user = Some pf ->
  positions pf !! token = Some pos ->
  Info.price (quote b env token) = Some price -> ~ price == 0 ->
  ~ Position.avg_price pos == 0 ->
  exists exec_price sol_amount profit profit_pct hit pf',
    (sell b env user token All).2
    = Sold (Position.amount pos) exec_price sol_amount profit profit_pct hit /\
    portfolios (sell b env user token All).1 !! uid user = Some pf' /\
    positions pf' !! token = None.
Proof.
  intros Hpf Hpos Hprice Hp Havg.
  assert (Hcov : Qgtb (selected_amount All pos) (Position.amount pos) = false)
    by (apply Qgtb_false, Qle_refl).
  destruct (sell_reaches_fill b env user token All pf pos Hpf Hpos Hcov)
    as [Hout Hpfs].
  rewrite (sell_fill_completes _ _ _ (now_trade env) pf pos _ token _ price
             Hprice Hp Havg) in Hout, Hpfs.
  cbn [fst snd selected_amount] in Hout, Hpfs.
  do 5 eexists. eexists. split; [exact Hout|]. split.
  - rewrite Hpfs. apply lookup_insert_eq.
  - cbn [positions]. unfold sold_positions.
    assert (Hres : Qltb (Position.amount pos - Position.amount pos) 0.0001 = true)
      by (apply Qltb_true; lra).
    rewrite Hres. apply lookup_delete_eq.
Qed.

(** ** Funding *)

(** C5, as amended. For a user who has a portfolio, a [/fund] above the
    cap of 20 SOL answers [InvalidAmount] and changes nothing; every
    amount of [(0, cap]] is credited exactly, and so is an amount that is
    zero or negative: the handler checks the amount against the cap
    only. *)
Theorem fund_checks_cap_only (b : Bot) (env : Env) (user : User) (amount : Q)
    (pf : Portfolio) :
  portfolios b !! uid user = Some pf ->
  (fund_cap < amount ->
   fund b env user (Some amount) = (b, InvalidAmount)) /\
  (amount <= fund_cap ->
   (fund b env user (Some amount)).2 = Funded amount /\
   portfolios (fund b env user (Some amount)).1 !! uid user
   = Some (mkPortfolio (balance pf + amount) (positions pf) (history pf))).
Proof.
  intros Hpf. unfold fund. rewrite Hpf.
  change (default 1 (Some amount)) with amount.
  split.
  - intros Hcap. apply Qltb_true in Hcap. unfold Qgtb. rewrite Hcap. reflexivity.
  - intros Hcap. apply Qgtb_false in Hcap. rewrite Hcap. cbn [fst snd].
    split; [reflexivity|].
    rewrite portfolios_save_data. apply lookup_insert_eq.
Qed.

(** ** The quote cache *)

(** A call that finds an entry younger than 10 seconds returns it and
    issues no request. *)
Lemma get_token_info_cache_hit (cache : gmap string CacheEntry) (net : Network)
    (clk : Clock) (token : string) (entry : CacheEntry) :
  cache !! token = Some entry ->
  t_enter clk - timestamp entry < 10 ->
  get_token_info cache net clk token = (data entry, cache, []).
Proof.
  intros Hentry Hage. unfold get_token_info, cache_lookup.
  rewrite Hentry. apply Qltb_true in Hage. rewrite Hage. reflexivity.
Qed.

(** A call that goes to the providers and reaches the end of the chain
    stores its result, so that a second call entered less than 10 seconds
    after the store returns that result and issues no request. *)
Lemma get_token_info_second_call_cached (cache : gmap string CacheEntry)
    (net net' : Network) (clk clk' : Clock) (token : string) (info : Info.t)
    (reqs : list Request) :
  cache_lookup cache (t_enter clk) token = None ->
  fetch_chain net (t_price clk) token = (FellThrough info, reqs) ->
  t_enter clk' - t_store clk < 10 ->
  let first := get_token_info cache net clk token in
  first.1.1 = info /\
  get_token_info first.1.2 net' clk' token = (info, first.1.2, []).
Proof.
  intros Hmiss Hchain Hage. unfold get_token_info at 1 2.
  rewrite Hmiss, Hchain. cbn [fst snd]. split; [reflexivity|].
  apply (get_token_info_cache_hit _ net' clk' token (mkCacheEntry (t_store clk) info)).
  - apply lookup_insert_eq.
  - exact Hage.
Qed.

(** A call that the Pump.fun branch answers leaves the cache as it was. *)
Lemma get_token_info_early_return (cache : gmap string CacheEntry) (net : Network)
    (clk : Clock) (token : string) (info : Info.t) (reqs : list Request) :
  cache_lookup cache (t_enter clk) token = None ->
  fetch_chain net (t_price clk) token = (Returned info, reqs) ->
  get_token_info cache net clk token = (info, cache, reqs).
Proof.
  intros Hmiss Hchain. unfold get_token_info. rewrite Hmiss, Hchain. reflexivity.
Qed.

(** ** Save and load *)

Lemma py_int_py_str (k : Z) : py_int (py_str k) = Some k.
Proof.
  unfold py_int, py_str.
  rewrite NilZero.isi.
  - cbn. f_equal. apply DecimalZ.of_to.
  - destruct k; cbn; try discriminate.
    intros [= H]. exact (DecimalPos.Unsigned.to_uint_nonnil _ H).
  - destruct k; cbn; try discriminate.
    intros [= H]. exact (DecimalPos.Unsigned.to_uint_nonnil _ H).
Qed.

(** Loading what was dumped from a list of entries inserts them in
    order, later entries over earlier ones. *)
Lemma load_items_dumped {V : Type} (l : list (Z * V)) (acc : gmap Z V) :
  load_items ((fun kv => (py_str kv.1, kv.2)) <$> l) acc
  = (list_to_map (reverse l) ∪ acc, true).
Proof.
  revert acc. induction l as [|[k v] l IH]; intros acc.
  - cbn. rewrite (left_id ∅ (∪)). reflexivity.
  - cbn [fmap list_fmap load_items fst snd]. rewrite py_int_py_str, IH.
    f_equal. rewrite reverse_cons, list_to_map_app. cbn [list_to_map foldr].
    rewrite <- (assoc_L (∪)). f_equal.
    cbn [fst snd]. rewrite insert_empty. apply insert_union_singleton_l.
Qed.

Lemma load_items_dump_dict {V : Type} (m : gmap Z V) :
  load_items (dump_dict m) ∅ = (m, true).
Proof.
  unfold dump_dict. rewrite load_items_dumped. f_equal.
  rewrite (right_id ∅ (∪)). symmetry. apply list_to_map_flip.
  symmetry. apply reverse_Permutation.
Qed.

(** C9. A save followed by a load, in the same process or in one that
    starts from any other state [b0] with the file on disk, gives every
    user the portfolio saved: [portfolios] is the same map from integer
    user ids, rebuilt from the string keys of the file, and so are the
    three other collections. *)
Theorem save_load_round_trip (b b0 : Bot) :
  let loaded := load_data (set_disk b0 (disk (save_data true b))) in
  portfolios loaded = portfolios b /\
  (forall user_id : Z, portfolios loaded !! user_id = portfolios b !! user_id) /\
  watchlists loaded = watchlists b /\
  user_settings loaded = user_settings b /\
  user_stats loaded = user_stats b.
Proof.
  cbn [save_data _write_file_sync set_disk disk load_data snapshot
       doc_portfolios doc_watchlists doc_user_settings doc_user_stats
       load_collection].
  rewrite !load_items_dump_dict. cbn.
  repeat split; reflexivity.
Qed.

(** * The scenario, evaluated *)

Section ScenarioFacts.
Import Scenario.

(** The scenario of the specification: 5 SOL at 0.001 SOL buy 5000
    tokens and leave 15 SOL. *)
Example scenario_buy :
  exists tokens exec_price hit pf,
    (buy bot0 buy_env alice token 5).2
    = Bought tokens exec_price hit /\
    tokens == 5000 /\ exec_price == 0.001 /\ hit == 0 /\
    portfolios bot1 !! 7%Z = Some pf /\ balance pf == 15.
Proof. do 4 eexists. repeat split; evaluate. Qed.

(** Selling all at 0.002 SOL brings 10 SOL, a profit of 5 SOL, a
    balance of 25 SOL, and removes the position. *)
Example scenario_sell_all :
  exists a exec_price sol_amount profit profit_pct hit pf,
    (sell bot1 sell_env alice token All).2
    = Sold a exec_price sol_amount profit profit_pct hit /\
    sol_amount == 10 /\ profit == 5 /\ profit_pct == 100 /\
    portfolios bot2 !! 7%Z = Some pf /\ balance pf == 25 /\
    positions pf !! token = None.
Proof. do 7 eexists. repeat split; evaluate. Qed.

(** The second call of the sale finds the token in the cache only if it
    comes within 10 seconds: here it comes a minute later. *)
Example scenario_cache_expired :
  cache_lookup (price_cache bot1) 160 token = None /\
  cache_lookup (price_cache bot1) 105 token
  = Some (quote bot0 buy_env token).
Proof. split; evaluate. Qed.

End ScenarioFacts.

(** * The theorems at the scenario *)

Section ScenarioWitnesses.
Import Scenario.

(** The first buy of the scenario debits exactly 5 SOL. *)
Lemma buy_debits_requested_amount_witness :
  5 <= balance (portfolio_of bot0 (uid alice)) /\
  has_price (Info.price (quote bot0 buy_env token)) = true /\
  exists pf',
    portfolios bot1 !! uid alice = Some pf' /\
    balance pf' = balance (portfolio_of bot0 (uid alice)) - 5.
Proof.
  eapply (buy_debits_requested_amount bot0 bot1 buy_env alice token 5).
  evaluate.
Defined.

(** A second buy for 5 SOL, at 0.002 SOL, merges 2500 tokens into the
    5000 held. *)
Lemma buy_weighted_average_cost_witness :
  let old := Position.amount pos1 in
  let old_avg := Position.avg_price pos1 in
  let exec_price := (apply_slippage ∅ 0 (0.3 / 150) true 7).1 in
  let tokens := 5 / exec_price in
  exists pf' pos',
    portfolios (buy bot1 sell_env alice token 5).1 !! uid alice = Some pf' /\
    positions pf' !! token = Some pos' /\
    Position.amount pos' = old + tokens /\
    Position.avg_price pos'
    = (old * old_avg + tokens * exec_price) / (old + tokens).
Proof.
  refine (proj2 (proj2 (proj2 (proj2
    (buy_weighted_average_cost bot1 (buy bot1 sell_env alice token 5).1
       sell_env alice token 5 _ _ _ pos1 _ _))))).
  - evaluate.
  - evaluate.
Defined.

(** The sale of the scenario. *)
Lemma sell_accounting_witness :
  let a := Position.amount pos1 in
  let exec_price := (apply_slippage ∅ 0 (0.3 / 150) false 7).1 in
  exists pf pos pf' price,
    portfolios bot1 !! uid alice = Some pf /\
    positions pf !! token = Some pos /\
    a = selected_amount All pos /\
    Info.price (quote bot1 sell_env token) = Some price /\
    apply_slippage (user_settings bot1) (draw sell_env) price false (uid alice)
    = (exec_price, (apply_slippage ∅ 0 (0.3 / 150) false 7).2) /\
    portfolios bot2 !! uid alice = Some pf' /\
    balance pf' = balance pf + a * exec_price /\
    history pf'
    = history pf
      ++ [Trade.mk SELL token a exec_price (a * exec_price)
            (Some ((exec_price - Position.avg_price pos) * a))
            (now_trade sell_env)] /\
    (Position.amount pos - a < 0.0001 -> positions pf' !! token = None) /\
    (0.0001 <= Position.amount pos - a ->
     positions pf' !! token
     = Some (Position.mk (Position.amount pos - a) (Position.avg_price pos)
               (Position.symbol pos))).
Proof.
  eapply (sell_accounting bot1 bot2 sell_env alice token All).
  evaluate.
Defined.

(** Selling all of the position of the scenario removes it. *)
Lemma sell_all_removes_position_witness :
  exists exec_price sol_amount profit profit_pct hit pf',
    (sell bot1 sell_env alice token All).2
    = Sold (Position.amount pos1) exec_price sol_amount profit profit_pct hit /\
    portfolios (sell bot1 sell_env alice token All).1 !! uid alice = Some pf' /\
    positions pf' !! token = None.
Proof.
  apply (sell_all_removes_position bot1 sell_env alice token
           (portfolio_of bot1 (uid alice)) pos1 (0.3 / 150)); evaluate.
Defined.

(** A [/fund 25] is refused and a [/fund -5] is credited. *)
Lemma fund_checks_cap_only_witness :
  fund bot0 buy_env alice (Some 25) = (bot0, InvalidAmount) /\
  (fund bot0 buy_env alice (Some (-5))).2 = Funded (-5) /\
  portfolios (fund bot0 buy_env alice (Some (-5))).1 !! uid alice
  = Some (mkPortfolio (balance fresh_portfolio + -5) ∅ []).
Proof.
  split.
  - apply (fund_checks_cap_only bot0 buy_env alice 25 fresh_portfolio);
      evaluate.
  - apply (fund_checks_cap_only bot0 buy_env alice (-5) fresh_portfolio);
      evaluate.
Defined.

(** No price: Alice's buy is refused and her portfolio is untouched. *)
Lemma buy_quote_unavailable_witness :
  (buy bot0 silent_env alice token 5).2 = QuoteUnavailable /\
  portfolios (buy bot0 silent_env alice token 5).1
  = portfolios (buy_entry bot0 silent_env alice) /\
  portfolios (buy bot0 silent_env alice token 5).1 !! uid alice
  = Some (portfolio_of bot0 (uid alice)) /\
  (is_Some (portfolios bot0 !! uid alice) ->
   portfolios (buy bot0 silent_env alice token 5).1 = portfolios bot0).
Proof.
  apply (buy_quote_unavailable bot0 silent_env alice token 5); evaluate.
Defined.

End ScenarioWitnesses.

Section ScenarioEdges.
Import Scenario Scenario2.

(** A buy of -5 SOL by Alice, who holds nothing yet: her balance goes
    from 20 to 25 SOL and she holds -5000 tokens. *)
Lemma buy_has_no_lower_bound_witness :
  let pf := portfolio_of bot0 (uid alice) in
  let exec_price := (apply_slippage ∅ 0 (0.15 / 150) true 7).1 in
  let tokens := -5 / exec_price in
  exists hit pf',
    (buy bot0 buy_env alice token (-5)).2 = Bought tokens exec_price hit /\
    portfolios (buy bot0 buy_env alice token (-5)).1 !! uid alice = Some pf' /\
    balance pf' = balance pf - -5 /\
    (-5 < 0 -> balance pf < balance pf') /\
    history pf'
    = history pf
      ++ [Trade.mk BUY token tokens exec_price (-5) None (now_trade buy_env)] /\
    (-5 <= 0 -> tokens <= 0) /\
    positions pf' !! token
    = Some (bought_position (positions pf !! token) tokens exec_price
              (Info.symbol (quote bot0 buy_env token))).
Proof.
  apply (buy_has_no_lower_bound bot0 buy_env alice token (-5) (0.15 / 150));
    evaluate.
Defined.

(** The amounts of that buy. *)
Example negative_buy_amounts :
  exists tokens exec_price hit pf,
    (buy bot0 buy_env alice token (-5)).2 = Bought tokens exec_price hit /\
    tokens == -5000 /\
    portfolios (buy bot0 buy_env alice token (-5)).1 !! uid alice = Some pf /\
    balance pf == 25.
Proof. do 4 eexists. repeat split; evaluate. Qed.

(** C10 as stated fails: an amount that does not exceed the balance can
    be rejected.  (1) Alice has 20 SOL and nobody quotes the token: her
    buy of -5 SOL is answered with the missing quote, and neither a
    position nor a trade is recorded.  (2) Alice holds 5000 tokens
    bought at 0.001 SOL, the price still quoted, and has 15 SOL.  Her buy
    of -5 SOL is for -5000 tokens, which brings the position to exactly
    zero: the average divides by zero and the handler ends with
    [ZeroDivisionError].  The balance is already 20 SOL, but the
    position is the one held before and no BUY trade is recorded. *)
Lemma buy_below_balance_can_fail :
  (-5 <= balance (portfolio_of bot0 (uid alice)) /\
   (buy bot0 silent_env alice token (-5)).2 = QuoteUnavailable /\
   portfolios (buy bot0 silent_env alice token (-5)).1 !! uid alice
   = Some (portfolio_of bot0 (uid alice))) /\
  (-5 <= balance (portfolio_of bot1 (uid alice)) /\
   has_price (Info.price (quote bot1 buy_env token)) = true /\
   (buy bot1 buy_env alice token (-5)).2 = ZeroDivisionError /\
   (forall tokens exec_price hit,
      (buy bot1 buy_env alice token (-5)).2 <> Bought tokens exec_price hit) /\
   exists pf,
     portfolios (buy bot1 buy_env alice token (-5)).1 !! uid alice = Some pf /\
     balance pf == 20 /\
     positions pf = positions (portfolio_of bot1 (uid alice)) /\
     history pf = history (portfolio_of bot1 (uid alice))).
Proof.
  split.
  - repeat split; evaluate.
  - split; [evaluate|]. split; [evaluate|]. split; [evaluate|].
    split; [intros tokens exec_price hit; evaluate|].
    eexists. repeat split; evaluate.
Qed.

(** C6 as stated fails: a sale with [all] can leave the position where
    it is.  (1) Alice holds 5000 tokens and, two hundred seconds in, no
    provider has a price for the token: [/sell <token> all] is answered
    with the missing quote and the position is still held.  (2) After
    her buy of -5 SOL at 0.002 SOL Alice holds 2500 tokens at an average
    price of zero.  The token is quoted, but the profit in percent
    divides by the average price: [/sell <token> all] ends with
    [ZeroDivisionError] and the position is still held. *)
Lemma sell_all_can_keep_position :
  (positions (portfolio_of bot1 (uid alice)) !! token = Some pos1 /\
   (sell bot1 quiet_env alice token All).2 = QuoteUnavailable /\
   positions (portfolio_of (sell bot1 quiet_env alice token All).1 (uid alice))
     !! token
   = Some pos1) /\
  (exists pos,
     positions (portfolio_of bot_flat (uid alice)) !! token = Some pos /\
     Position.amount pos == 2500 /\
     Position.avg_price pos == 0 /\
     has_price (Info.price (quote bot_flat late_env token)) = true /\
     (sell bot_flat late_env alice token All).2 = ZeroDivisionError /\
     positions (portfolio_of (sell bot_flat late_env alice token All).1 (uid alice))
       !! token
     = Some pos).
Proof.
  split.
  - repeat split; evaluate.
  - eexists. repeat split; evaluate.
Qed.

(** The quote of a coin on its bonding curve whose creation time
    [datetime.fromtimestamp] refuses, and of one whose market
    capitalisation is [null]: the call goes on to DexScreener, keeps the
    price that the Pump.fun branch stored, and stores the quote in the
    cache, so that a second call a second later sends no request. *)
Example pump_fun_branch_raises :
  Forall
    (fun c =>
       let first := get_token_info ∅ (raising_net c) (clock_at 100) token in
       let second := get_token_info first.1.2 (raising_net c) (clock_at 103) token in
       first.2 = [GetSolJupiter; GetPumpFun token; GetDexScreener token] /\
       Info.price first.1.1 = Info.price (get_token_info ∅ pump_net (clock_at 100) token).1.1 /\
       Info.created_at first.1.1 = None /\
       first.1.2 !! token = Some (mkCacheEntry (t_store (clock_at 100)) first.1.1) /\
       second.1.1 = first.1.1 /\ second.2 = [])
    [far_curve; null_cap_curve].
Proof. repeat constructor; evaluate. Qed.

(** C5 as stated fails: Alice, with 20 SOL, sends [/fund -5].  The
    amount is not positive, yet the call is not refused with
    [InvalidAmount]: it answers as a funding of -5 SOL and leaves her 15
    SOL. *)
Lemma fund_accepts_negative_amount :
  -5 <= 0 /\
  portfolios bot0 !! uid alice = Some fresh_portfolio /\
  (fund bot0 buy_env alice (Some (-5))).2 = Funded (-5) /\
  (fund bot0 buy_env alice (Some (-5))).2 <> InvalidAmount /\
  exists pf,
    portfolios (fund bot0 buy_env alice (Some (-5))).1 !! uid alice = Some pf /\
    balance pf == 15 /\ ~ balance pf == balance fresh_portfolio.
Proof.
  split; [evaluate|]. split; [evaluate|]. split; [evaluate|].
  split; [discriminate|].
  eexists. split; [evaluate|]. split; evaluate.
Qed.

(** C4 fails for a token on its Pump.fun bonding curve.  The first call,
    entered at 100 s with an empty cache, gets a price from Pump.fun and
    returns from inside that branch, at 102 s, without storing it: the
    cache has no entry for the token.  The second call, entered one
    second later, goes to the providers again. *)
Theorem pump_fun_quote_is_not_cached :
  let first := get_token_info ∅ pump_net (clock_at 100) token in
  let second := get_token_info first.1.2 pump_net (clock_at 103) token in
  has_price (Info.price first.1.1) = true /\
  first.2 = [GetSolJupiter; GetPumpFun token] /\
  first.1.2 !! token = None /\
  t_enter (clock_at 103) - t_store (clock_at 100) < 10 /\
  second.2 = [GetSolJupiter; GetPumpFun token] /\
  second.2 <> [].
Proof.
  repeat split; evaluate.
Qed.

(** The same two calls for a token that trades on a DEX: the second
    one is answered from the cache. *)
Example dex_quote_is_cached :
  let first := get_token_info ∅ (dex_net 0.15) (clock_at 100) token in
  let second := get_token_info first.1.2 (dex_net 0.15) (clock_at 103) token in
  first.2 = [GetSolJupiter; GetPumpFun token; GetDexScreener token] /\
  second.1.1 = first.1.1 /\ second.2 = [].
Proof. repeat split; evaluate. Qed.

End ScenarioEdges.

(** * Further properties *)

(** ** The provider chain *)

Lemma max_by_cons {A : Type} (key : A -> Q) (x y : A) (l : list A) :
  max_by key x (y :: l) = max_by key (if Qltb (key x) (key y) then y else x) l.
Proof. reflexivity. Qed.

(** The pair that [max] picks. *)
Lemma max_by_scan {A : Type} (key : A -> Q) (l before middle : list A) (best : A) :
  Forall (fun y => key y < key best) before ->
  Forall (fun y => key y <= key best) middle ->
  exists before' after,
    before ++ best :: middle ++ l = before' ++ max_by key best l :: after /\
    Forall (fun y => key y < key (max_by key best l)) before' /\
    Forall (fun y => key y <= key (max_by key best l)) after.
Proof.
  revert before middle best.
  induction l as [|y l IH]; intros before middle best Hbefore Hmiddle.
  - exists before, middle. rewrite app_nil_r. cbn. auto.
  - rewrite max_by_cons.
    destruct (Qltb (key best) (key y)) eqn:Hlt.
    + apply Qltb_true in Hlt.
      destruct (IH (before ++ best :: middle) [] y) as (b' & a' & Heq & Hb & Ha).
      * apply Forall_app. split; [|constructor].
        -- eapply Forall_impl; [exact Hbefore|].
           intros z Hz. cbn in Hz. eapply Qlt_trans; eassumption.
        -- exact Hlt.
        -- eapply Forall_impl; [exact Hmiddle|].
           intros z Hz. cbn in Hz. eapply Qle_lt_trans; eassumption.
      * constructor.
      * exists b', a'. split; [|split; assumption].
        rewrite <- Heq. cbn [app]. rewrite <- !app_assoc. reflexivity.
    + apply Qltb_false in Hlt.
      destruct (IH before (middle ++ [y]) best) as (b' & a' & Heq & Hb & Ha).
      * exact Hbefore.
      * apply Forall_app. split; [exact Hmiddle|]. constructor; [exact Hlt|constructor].
      * exists b', a'. split; [|split; assumption].
        rewrite <- Heq. rewrite <- !app_assoc. reflexivity.
Qed.

(** X1. [max(pairs, key=...)] as [get_token_info] uses it for the
    DexScreener pairs: the pair chosen is one of the list, every pair
    before it has a strictly smaller key and every pair after it a key
    that is not greater: the first of the most liquid pairs. *)
Theorem max_by_first_greatest {A : Type} (key : A -> Q) (x : A) (l : list A) :
  exists before after,
    x :: l = before ++ max_by key x l :: after /\
    Forall (fun y => key y < key (max_by key x l)) before /\
    Forall (fun y => key y <= key (max_by key x l)) after.
Proof.
  destruct (max_by_scan key l [] [] x) as (b & a & Heq & Hb & Ha);
    [constructor | constructor |].
  exists b, a. split; [exact Heq|]. split; assumption.
Qed.



(** X3. A call for one token leaves the cache entries of all other
    tokens as they are. *)
Theorem get_token_info_keeps_other_entries (cache : gmap string CacheEntry)
    (net : Network) (clk : Clock) (token other : string) :
  other <> token ->
  (get_token_info cache net clk token).1.2 !! other = cache !! other.
Proof.
  intros Hne. unfold get_token_info.
  destruct (cache_lookup cache (t_enter clk) token); [reflexivity|].
  destruct (fetch_chain net (t_price clk) token) as [[info|info] reqs];
    cbn [fst snd]; [reflexivity|].
  apply lookup_insert_ne. congruence.
Qed.

(** Off the bonding curve the Pump.fun branch writes nothing. *)
Lemma pump_stage_inactive (r : Response PumpCoin) (sol_price now : Q)
    (ok : Q -> bool) (info : Info.t) :
  (forall c, r = OK c -> on_bonding_curve c = false) ->
  pump_stage r sol_price now ok info = FellThrough info.
Proof.
  intros H. destruct r as [| |c]; try reflexivity.
  specialize (H c eq_refl). unfold on_bonding_curve in H. unfold pump_stage.
  destruct (has_mint c && negb (complete c)); [|reflexivity].
  cbn in H. rewrite H. reflexivity.
Qed.

Lemma dexscreener_stage_no_sol_price (r : Response (list DexPair)) (sol_price now : Q)
    (ok : Q -> bool) (info : Info.t) :
  Qgtb sol_price 0 = false ->
  Info.price (dexscreener_stage r sol_price now ok info) = Info.price info.
Proof.
  intros H. destruct r as [| |[|p0 ps]]; try reflexivity. cbn. rewrite H. reflexivity.
Qed.

Lemma jupiter_stage_no_sol_price (r : Response (option (option Q))) (sol_price now : Q)
    (info : Info.t) :
  Qgtb sol_price 0 = false ->
  Info.price (jupiter_stage r sol_price now info) = Info.price info.
Proof.
  intros H. destruct r as [| |[pd|]]; try reflexivity. cbn. rewrite H. reflexivity.
Qed.

Lemma birdeye_stage_no_sol_price (r : Response (option Q)) (sol_price now : Q)
    (info : Info.t) :
  Qgtb sol_price 0 = false ->
  Info.price (birdeye_stage r sol_price now info) = Info.price info.
Proof.
  intros H. destruct r as [| |[value|]]; try reflexivity. cbn. rewrite H. reflexivity.
Qed.

(** X4. Without a SOL price (neither Jupiter nor, after an exception of
    Jupiter, DexScreener gave a positive one), a token that is not on its
    Pump.fun bonding curve gets no price, whatever DexScreener, Jupiter
    and Birdeye answer for it: they know USD prices only. *)
Theorem quote_needs_sol_price (cache : gmap string CacheEntry) (net : Network)
    (clk : Clock) (token : string) :
  cache_lookup cache (t_enter clk) token = None ->
  (fetch_sol_price net).1 <= 0 ->
  (forall c, pump_fun net token = OK c -> on_bonding_curve c = false) ->
  Info.price (get_token_info cache net clk token).1.1 = None.
Proof.
  intros Hmiss Hsol Hpump. unfold get_token_info. rewrite Hmiss.
  unfold fetch_chain. destruct (session_ok net); [|reflexivity].
  destruct (fetch_sol_price net) as [sol_price r0]. cbn [fst] in Hsol.
  apply Qgtb_false in Hsol.
  rewrite (pump_stage_inactive _ _ _ _ _ Hpump).
  set (info1 := dexscreener_stage _ _ _ _ _).
  assert (H1 : Info.price info1 = None)
    by (unfold info1; rewrite dexscreener_stage_no_sol_price; [reflexivity|exact Hsol]).
  rewrite H1. cbn [has_price].
  set (info2 := jupiter_stage _ _ _ _).
  assert (H2 : Info.price info2 = None)
    by (unfold info2; rewrite jupiter_stage_no_sol_price; assumption).
  rewrite H2. cbn [has_price fst snd].
  rewrite birdeye_stage_no_sol_price; assumption.
Qed.

Lemma quotient_nonzero (usd sol_price : Q) :
  ~ usd == 0 -> 0 < sol_price -> truthy (usd / sol_price) = true.
Proof.
  intros Husd Hsol. apply truthy_true. intros H0.
  apply Husd.
  assert (E : usd == usd / sol_price * sol_price) by (field; lra).
  rewrite E, H0. ring.
Qed.

(** X5. When DexScreener lists pairs for the token, the SOL price is
    positive and the most liquid pair has a USD price that is not zero,
    the quote is that price over the SOL price, attributed to the DEX of
    that pair; Jupiter and Birdeye are not asked, and the quote is
    stored in the cache. *)
Theorem dexscreener_quote_ends_chain (cache : gmap string CacheEntry) (net : Network)
    (clk : Clock) (token : string) (p0 : DexPair) (ps : list DexPair) :
  let sol_price := (fetch_sol_price net).1 in
  let best := max_by liquidity_key p0 ps in
  let usd := default 0 (priceUsd best) in
  let result := get_token_info cache net clk token in
  cache_lookup cache (t_enter clk) token = None ->
  session_ok net = true ->
  (forall c, pump_fun net token = OK c -> on_bonding_curve c = false) ->
  0 < sol_price ->
  dexscreener net token = OK (p0 :: ps) ->
  ~ usd == 0 ->
  Info.price result.1.1 = Some (usd / sol_price) /\
  Info.dex_name result.1.1 = Some (default "Unknown DEX"%string (dexId best)) /\
  result.2 = (fetch_sol_price net).2 ++ [GetPumpFun token; GetDexScreener token] /\
  result.1.2 !! token = Some (mkCacheEntry (t_store clk) result.1.1).
Proof.
  intros sol_price best usd result Hmiss Hsession Hpump Hsol Hdex Husd.
  subst result. unfold get_token_info. rewrite Hmiss.
  unfold fetch_chain. rewrite Hsession.
  subst sol_price. destruct (fetch_sol_price net) as [sol_price r0]. cbn [fst snd] in *.
  rewrite (pump_stage_inactive _ _ _ _ _ Hpump), Hdex.
  assert (Hgt : Qgtb sol_price 0 = true) by (apply Qltb_true; exact Hsol).
  cbn [dexscreener_stage Info.price]. rewrite Hgt. fold best. fold usd.
  pose proof (quotient_nonzero _ _ Husd Hsol) as Ht.
  cbv beta iota zeta delta [has_price fst snd]. rewrite Ht.
  cbv beta iota zeta delta [has_price fst snd Info.price]. rewrite Ht.
  repeat split. apply lookup_insert_eq.
Qed.

(** X6. Birdeye is the last resort: when the SOL price is positive, the
    token is not on its bonding curve, DexScreener lists no pair and
    Jupiter has no entry for the token, a value from Birdeye becomes the
    quote, attributed to Birdeye, after all of the other providers were
    asked. *)
Theorem birdeye_is_last_resort (cache : gmap string CacheEntry) (net : Network)
    (clk : Clock) (token : string) (value : Q) :
  let sol_price := (fetch_sol_price net).1 in
  let result := get_token_info cache net clk token in
  cache_lookup cache (t_enter clk) token = None ->
  session_ok net = true ->
  (forall c, pump_fun net token = OK c -> on_bonding_curve c = false) ->
  0 < sol_price ->
  (forall p0 ps, dexscreener net token <> OK (p0 :: ps)) ->
  (forall price_data, jupiter net token <> OK (Some price_data)) ->
  birdeye net token = OK (Some value) ->
  Info.price result.1.1 = Some (value / sol_price) /\
  Info.price_usd result.1.1 = Some value /\
  Info.dex_name result.1.1 = Some "Birdeye"%string /\
  result.2 = (fetch_sol_price net).2
             ++ [GetPumpFun token; GetDexScreener token; GetJupiter token;
                 GetBirdeye token].
Proof.
  intros sol_price result Hmiss Hsession Hpump Hsol Hdex Hjup Hbird.
  subst result. unfold get_token_info. rewrite Hmiss.
  unfold fetch_chain. rewrite Hsession.
  subst sol_price. destruct (fetch_sol_price net) as [sol_price r0]. cbn [fst snd] in *.
  rewrite (pump_stage_inactive _ _ _ _ _ Hpump).
  assert (Hgt : Qgtb sol_price 0 = true) by (apply Qltb_true; exact Hsol).
  assert (H1 : dexscreener_stage (dexscreener net token) sol_price (t_price clk)
                 (fromtimestamp_ok net) (with_sol_price sol_price Info.init)
               = with_sol_price sol_price Info.init).
  { destruct (dexscreener net token) as [| |[|p0 ps]] eqn:E; try reflexivity.
    destruct (Hdex p0 ps eq_refl). }
  assert (H2 : forall info, jupiter_stage (jupiter net token) sol_price (t_price clk) info
                            = info).
  { intros info. destruct (jupiter net token) as [| |[pd|]] eqn:E; try reflexivity.
    destruct (Hjup pd eq_refl). }
  rewrite H1, H2, Hbird.
  cbv beta iota zeta
      delta [has_price fst snd with_sol_price Info.init birdeye_stage usd_only
             Info.price Info.price_usd Info.dex_name].
  rewrite Hgt. rewrite <- !app_assoc. repeat split.
Qed.


(** On its bonding curve, a body on which the branch does not run to its
    [return] leaves the branch by the exception. *)
Lemma pump_stage_raised (c : PumpCoin) (sol_price now : Q) (ok : Q -> bool)
    (info : Info.t) :
  on_bonding_curve c = true ->
  pump_returns ok c = false ->
  exists info', pump_stage (OK c) sol_price now ok info = FellThrough info'.
Proof.
  intros Hcurve Hraises. unfold on_bonding_curve in Hcurve.
  apply andb_true_iff in Hcurve as [Hactive Hreserves].
  unfold pump_stage. rewrite Hactive, Hreserves.
  unfold pump_returns in Hraises.
  destruct (pump_market_cap c); try (eexists; reflexivity);
    destruct (created_timestamp c) as [ts|]; try discriminate;
    destruct (ts =? 0)%Z; try discriminate;
    cbn [orb] in Hraises; rewrite Hraises; eexists; reflexivity.
Qed.

(** The chain once the Pump.fun branch is left without its [return]:
    DexScreener is asked, and the end of the chain is reached. *)
Lemma fetch_chain_fell_through (net : Network) (now : Q) (token : string)
    (info0 : Info.t) :
  session_ok net = true ->
  pump_stage (pump_fun net token) (fetch_sol_price net).1 now (fromtimestamp_ok net)
    (with_sol_price (fetch_sol_price net).1 Info.init)
  = FellThrough info0 ->
  exists info chain,
    fetch_chain net now token
    = (FellThrough info,
       (fetch_sol_price net).2
       ++ [GetPumpFun token; GetDexScreener token] ++ chain).
Proof.
  intros Hsession Hpump. unfold fetch_chain. rewrite Hsession.
  destruct (fetch_sol_price net) as [sol_price r0]. cbn [fst snd] in *.
  rewrite Hpump.
  set (info1 := dexscreener_stage _ _ _ _ _).
  destruct (has_price (Info.price info1)) eqn:H1.
  { cbv beta iota zeta. rewrite H1.
    exists info1, []. reflexivity. }
  cbv beta iota zeta.
  destruct (has_price (Info.price (jupiter_stage _ _ _ info1))).
  { eexists. exists [GetJupiter token]. rewrite <- app_assoc. reflexivity. }
  eexists. exists [GetJupiter token; GetBirdeye token].
  rewrite <- !app_assoc. reflexivity.
Qed.

(** X30. When the Pump.fun branch raises after it stored the price (a
    [null] market capitalisation, a creation time that
    [datetime.fromtimestamp] refuses), the call does not return from the
    branch: DexScreener is asked next, and the quote the call ends with
    is stored in the cache. *)
Theorem pump_fun_exception_goes_on (cache : gmap string CacheEntry) (net : Network)
    (clk : Clock) (token : string) (c : PumpCoin) :
  let result := get_token_info cache net clk token in
  cache_lookup cache (t_enter clk) token = None ->
  session_ok net = true ->
  pump_fun net token = OK c ->
  on_bonding_curve c = true ->
  pump_returns (fromtimestamp_ok net) c = false ->
  (exists chain,
     result.2
     = (fetch_sol_price net).2
       ++ [GetPumpFun token; GetDexScreener token] ++ chain) /\
  result.1.2 !! token = Some (mkCacheEntry (t_store clk) result.1.1).
Proof.
  intros result Hmiss Hsession Hpump Hcurve Hraises.
  subst result. unfold get_token_info. rewrite Hmiss.
  destruct (pump_stage_raised c (fetch_sol_price net).1 (t_price clk)
              (fromtimestamp_ok net)
              (with_sol_price (fetch_sol_price net).1 Info.init) Hcurve Hraises)
    as [info0 Hstage].
  rewrite <- Hpump in Hstage.
  destruct (fetch_chain_fell_through net (t_price clk) token info0 Hsession Hstage)
    as (info & chain & ->).
  cbn [fst snd]. split; [exists chain; reflexivity|].
  apply lookup_insert_eq.
Qed.

(** ** The ledger: what a command changes *)

Lemma lookup_ensure_portfolio_other (w : bool) (user_id other : Z) (b : Bot) :
  other <> user_id ->
  portfolios (ensure_portfolio w user_id b) !! other = portfolios b !! other.
Proof.
  intros Hne. unfold ensure_portfolio.
  destruct (portfolios b !! user_id); [reflexivity|].
  rewrite portfolios_save_data. cbn. apply lookup_insert_ne. congruence.
Qed.

(** The ways in which [buy_fill] ends. *)
Lemma buy_fill_cases (settings : gmap Z Settings) (u : Q) (user_id : Z) (now : string)
    (pf : Portfolio) (info : Info.t) (token : string) (sol_amount : Q) :
  let r := buy_fill settings u user_id now pf info token sol_amount in
  (r.2 = QuoteUnavailable /\ r.1 = pf) \/
  (r.2 = ZeroDivisionError /\ positions r.1 = positions pf /\
   history r.1 = history pf) \/
  (exists tokens exec_price hit,
     r.2 = Bought tokens exec_price hit /\
     history r.1
     = history pf ++ [Trade.mk BUY token tokens exec_price sol_amount None now]).
Proof.
  unfold buy_fill.
  destruct (Info.price info) as [price|]; [|left; split; reflexivity].
  destruct (truthy price); cbn [negb]; [|left; split; reflexivity].
  destruct (apply_slippage settings u price true user_id) as [e h].
  destruct (pydiv sol_amount e) as [t|]; [|right; left; repeat split].
  destruct (positions pf !! token) as [pos|].
  - destruct (pydiv _ _); [|right; left; repeat split].
    right; right. do 3 eexists. split; reflexivity.
  - right; right. do 3 eexists. split; reflexivity.
Qed.

(** The ways in which [sell_fill] ends. *)
Lemma sell_fill_cases (settings : gmap Z Settings) (u : Q) (user_id : Z) (now : string)
    (pf : Portfolio) (pos : Position.t) (info : Info.t) (token : string) (amount : Q) :
  let r := sell_fill settings u user_id now pf pos info token amount in
  ((r.2 = QuoteUnavailable \/ r.2 = ZeroDivisionError) /\ r.1 = pf) \/
  (exists exec_price sol_amount profit profit_pct hit,
     r.2 = Sold amount exec_price sol_amount profit profit_pct hit /\
     positions r.1 = sold_positions (positions pf) token pos amount /\
     history r.1
     = history pf
       ++ [Trade.mk SELL token amount exec_price sol_amount (Some profit) now]).
Proof.
  unfold sell_fill.
  destruct (Info.price info) as [price|]; [|left; split; [left|]; reflexivity].
  destruct (truthy price); cbn [negb]; [|left; split; [left|]; reflexivity].
  destruct (apply_slippage settings u price false user_id) as [e h].
  destruct (pydiv e (Position.avg_price pos)); [|left; split; [right|]; reflexivity].
  right. do 5 eexists. repeat split.
Qed.

(** The ways in which [sell] ends: nothing changed in [portfolios], or
    the user's portfolio replaced by what [sell_fill] leaves. *)
Lemma sell_cases (b : Bot) (env : Env) (user : User) (token : string) (sel : Selector) :
  (portfolios (sell b env user token sel).1 = portfolios b /\
   ((sell b env user token sel).2 = NoPortfolio \/
    (sell b env user token sel).2 = NoSuchPosition \/
    (sell b env user token sel).2 = InsufficientHoldings)) \/
  (exists pf pos,
     portfolios b !! uid user = Some pf /\
     positions pf !! token = Some pos /\
     let filled :=
       sell_fill (user_settings b) (draw env) (uid user) (now_trade env) pf pos
                 (quote b env token) token (selected_amount sel pos) in
     (sell b env user token sel).2 = filled.2 /\
     portfolios (sell b env user token sel).1
     = <[uid user := filled.1]> (portfolios b)).
Proof.
  destruct (portfolios b !! uid user) as [pf|] eqn:Hpf.
  2: { left. unfold sell. cbn [log_activity set_user_stats portfolios].
       rewrite Hpf. split; [reflexivity | left; reflexivity]. }
  destruct (positions pf !! token) as [pos|] eqn:Hpos.
  2: { left. unfold sell. cbn [log_activity set_user_stats portfolios].
       rewrite Hpf, Hpos. split; [reflexivity | right; left; reflexivity]. }
  destruct (Qgtb (selected_amount sel pos) (Position.amount pos)) eqn:Hcov.
  { left. unfold sell. cbn [log_activity set_user_stats portfolios].
    rewrite Hpf, Hpos, Hcov. split; [reflexivity | right; right; reflexivity]. }
  right. exists pf, pos. split; [reflexivity|]. split; [exact Hpos|].
  exact (sell_reaches_fill b env user token sel pf pos Hpf Hpos Hcov).
Qed.

(** X8. A [/buy] that does not end in a purchase leaves the positions
    and the history of the user as they were; unless it ended with the
    division by zero of the average, it leaves the whole portfolio, and
    the portfolios of everybody, as it found them. *)
Theorem buy_rejected_leaves_portfolio (b : Bot) (env : Env) (user : User)
    (token : string) (sol_amount : Q) :
  (forall tokens exec_price hit,
     (buy b env user token sol_amount).2 <> Bought tokens exec_price hit) ->
  exists pf',
    portfolios (buy b env user token sol_amount).1 !! uid user = Some pf' /\
    positions pf' = positions (portfolio_of b (uid user)) /\
    history pf' = history (portfolio_of b (uid user)) /\
    ((buy b env user token sol_amount).2 <> ZeroDivisionError ->
     pf' = portfolio_of b (uid user) /\
     portfolios (buy b env user token sol_amount).1
     = portfolios (buy_entry b env user)).
Proof.
  intros Hnot.
  destruct (Qgtb sol_amount (balance (portfolio_of b (uid user)))) eqn:Hbal.
  - rewrite (buy_fails_balance_check _ _ _ _ _ Hbal) in *. cbn [fst snd].
    exists (portfolio_of b (uid user)).
    split; [apply lookup_buy_entry|]. repeat split.
  - destruct (buy_passes_balance_check b env user token sol_amount Hbal)
      as [Hout Hpfs].
    rewrite Hpfs.
    destruct (buy_fill_cases (user_settings b) (draw env) (uid user) (now_trade env)
                (portfolio_of b (uid user)) (quote b env token) token sol_amount)
      as [[Ho Hp] | [(Ho & Hp & Hh) | (t & e & h & Ho & _)]].
    + rewrite Hp. exists (portfolio_of b (uid user)).
      split; [apply lookup_insert_eq|]. repeat split.
      apply insert_id, lookup_buy_entry.
    + eexists. split; [apply lookup_insert_eq|].
      split; [exact Hp|]. split; [exact Hh|].
      intros Hz. rewrite Hout, Ho in Hz. contradiction.
    + rewrite Ho in Hout. destruct (Hnot _ _ _ Hout).
Qed.

(** X9. A [/sell] that does not end in a sale changes no portfolio:
    whether the user or the position is unknown, the amount exceeds the
    holding, no price is quoted, or the average price is zero. *)
Theorem sell_rejected_changes_nothing (b : Bot) (env : Env) (user : User)
    (token : string) (sel : Selector) :
  (forall a exec_price sol_amount profit profit_pct hit,
     (sell b env user token sel).2
     <> Sold a exec_price sol_amount profit profit_pct hit) ->
  portfolios (sell b env user token sel).1 = portfolios b.
Proof.
  intros Hnot.
  destruct (sell_cases b env user token sel)
    as [[Hsame _] | (pf & pos & Hpf & Hpos & Hout & Hpfs)]; [exact Hsame|].
  rewrite Hpfs.
  destruct (sell_fill_cases (user_settings b) (draw env) (uid user) (now_trade env)
              pf pos (quote b env token) token (selected_amount sel pos))
    as [[_ Hp] | (e & s & p & pct & h & Ho & _)].
  - rewrite Hp. apply insert_id. exact Hpf.
  - rewrite Ho in Hout. destruct (Hnot _ _ _ _ _ _ Hout).
Qed.

(** X10. [buy], [sell], [fund] and [reset] by one user leave the
    portfolio of every other user as it was. *)
Theorem commands_touch_one_portfolio (b : Bot) (env : Env) (user : User)
    (token : string) (amount : Q) (sel : Selector) (arg : option Q) (other : Z) :
  other <> uid user ->
  portfolios (buy b env user token amount).1 !! other = portfolios b !! other /\
  portfolios (sell b env user token sel).1 !! other = portfolios b !! other /\
  portfolios (fund b env user arg).1 !! other = portfolios b !! other /\
  portfolios (reset b env user) !! other = portfolios b !! other.
Proof.
  intros Hne.
  assert (Hentry : portfolios (buy_entry b env user) !! other = portfolios b !! other).
  { unfold buy_entry. rewrite lookup_ensure_portfolio_other; [reflexivity|exact Hne]. }
  repeat split.
  - destruct (Qgtb amount (balance (portfolio_of b (uid user)))) eqn:Hbal.
    + rewrite (buy_fails_balance_check _ _ _ _ _ Hbal). exact Hentry.
    + destruct (buy_passes_balance_check b env user token amount Hbal) as [_ ->].
      rewrite lookup_insert_ne; [exact Hentry | congruence].
  - destruct (sell_cases b env user token sel)
      as [[-> _] | (pf & pos & _ & _ & _ & ->)]; [reflexivity|].
    apply lookup_insert_ne. congruence.
  - unfold fund. destruct (portfolios b !! uid user); [|reflexivity].
    destruct (Qgtb _ fund_cap); [reflexivity|]. cbn [fst].
    rewrite portfolios_save_data. cbn. apply lookup_insert_ne. congruence.
  - unfold reset. rewrite portfolios_save_data. cbn.
    apply lookup_insert_ne. congruence.
Qed.

(** X11. The history is append-only under [buy], [sell] and [fund]:
    whatever the outcome, the trades recorded before are the first
    trades of the history afterwards, in the same order. *)
Theorem history_is_append_only (b : Bot) (env : Env) (user : User)
    (token : string) (amount : Q) (sel : Selector) (arg : option Q) :
  let before := history (portfolio_of b (uid user)) in
  before `prefix_of` history (portfolio_of (buy b env user token amount).1 (uid user)) /\
  before `prefix_of` history (portfolio_of (sell b env user token sel).1 (uid user)) /\
  before `prefix_of` history (portfolio_of (fund b env user arg).1 (uid user)).
Proof.
  cbn zeta. repeat split.
  - destruct (Qgtb amount (balance (portfolio_of b (uid user)))) eqn:Hbal.
    + rewrite (buy_fails_balance_check _ _ _ _ _ Hbal). cbn [fst].
      rewrite portfolio_of_buy_entry. reflexivity.
    + destruct (buy_passes_balance_check b env user token amount Hbal) as [_ Hpfs].
      assert (Hafter : portfolio_of (buy b env user token amount).1 (uid user)
                       = (buy_fill (user_settings b) (draw env) (uid user)
                            (now_trade env) (portfolio_of b (uid user))
                            (quote b env token) token amount).1)
        by (unfold portfolio_of at 1; rewrite Hpfs, lookup_insert_eq; reflexivity).
      rewrite Hafter.
      destruct (buy_fill_cases (user_settings b) (draw env) (uid user)
                  (now_trade env) (portfolio_of b (uid user)) (quote b env token)
                  token amount)
        as [[_ ->] | [(_ & _ & ->) | (t & e & h & _ & ->)]];
        [reflexivity | reflexivity | apply prefix_app_r; reflexivity].
  - destruct (sell_cases b env user token sel)
      as [[Hsame _] | (pf & pos & Hpf & _ & _ & Hpfs)].
    + unfold portfolio_of. rewrite Hsame. reflexivity.
    + assert (Hbefore : portfolio_of b (uid user) = pf)
        by (unfold portfolio_of; rewrite Hpf; reflexivity).
      assert (Hafter : portfolio_of (sell b env user token sel).1 (uid user)
                       = (sell_fill (user_settings b) (draw env) (uid user)
                            (now_trade env) pf pos (quote b env token) token
                            (selected_amount sel pos)).1)
        by (unfold portfolio_of; rewrite Hpfs, lookup_insert_eq; reflexivity).
      rewrite Hbefore, Hafter.
      destruct (sell_fill_cases (user_settings b) (draw env) (uid user)
                  (now_trade env) pf pos (quote b env token) token
                  (selected_amount sel pos))
        as [[_ ->] | (e & s & p & pct & h & _ & _ & ->)];
        [reflexivity | apply prefix_app_r; reflexivity].
  - unfold fund, portfolio_of.
    destruct (portfolios b !! uid user) as [pf|] eqn:Hpf;
      [|cbn [fst]; rewrite Hpf; reflexivity].
    destruct (Qgtb _ fund_cap); cbn [fst]; [rewrite Hpf; reflexivity|].
    rewrite portfolios_save_data. cbn [set_portfolios portfolios].
    rewrite lookup_insert_eq. reflexivity.
Qed.

(** X12. A purchase of a finite amount from a finite balance never
    overdraws: after a [/buy] that went through, the balance is not
    negative.  (A balance or an amount that is NaN passes the balance
    check of the code and is not covered.) *)
Theorem buy_never_overdraws (b b' : Bot) (env : Env) (user : User) (token : string)
    (sol_amount tokens exec_price hit : Q) :
  buy b env user token sol_amount = (b', Bought tokens exec_price hit) ->
  exists pf', portfolios b' !! uid user = Some pf' /\ 0 <= balance pf'.
Proof.
  intros Hbuy.
  destruct (buy_Bought _ _ _ _ _ _ _ _ _ Hbuy) as (Hle & pf' & Hpf' & Hfill).
  destruct (buy_fill_Bought _ _ _ _ _ _ _ _ _ _ _ _ Hfill)
    as (price & _ & _ & _ & _ & Hbalance & _).
  exists pf'. split; [exact Hpf'|]. rewrite Hbalance. lra.
Qed.

(** A sale keeps a set of positions free of dust. *)
Lemma sold_positions_dust_free (held : gmap string Position.t) (token : string)
    (pos : Position.t) (amount : Q) :
  dust_free held -> dust_free (sold_positions held token pos amount).
Proof.
  intros Hfree token' pos'. unfold sold_positions.
  destruct (Qltb (Position.amount pos - amount) 0.0001) eqn:Hres.
  - intros H. apply lookup_delete_Some in H as [_ H]. exact (Hfree _ _ H).
  - apply Qltb_false in Hres.
    intros H. apply lookup_insert_Some in H as [[_ <-] | [_ H]].
    + exact Hres.
    + exact (Hfree _ _ H).
Qed.

(** X13. [/sell] of a finite amount never leaves dust: if every position
    of the user holds a finite amount of at least 0.0001 token before,
    every position holds at least 0.0001 token afterwards, whatever the
    finite amount sold and the outcome.  (An amount that is NaN or
    infinite leaves a position that no comparison deletes, and is not
    covered.) *)
Theorem sell_keeps_positions_dust_free (b : Bot) (env : Env) (user : User)
    (token : string) (sel : Selector) :
  dust_free (positions (portfolio_of b (uid user))) ->
  dust_free (positions (portfolio_of (sell b env user token sel).1 (uid user))).
Proof.
  intros Hfree.
  destruct (sell_cases b env user token sel)
    as [[Hsame _] | (pf & pos & Hpf & _ & _ & Hpfs)].
  - unfold portfolio_of in *. rewrite Hsame. exact Hfree.
  - assert (Hbefore : portfolio_of b (uid user) = pf)
      by (unfold portfolio_of; rewrite Hpf; reflexivity).
    assert (Hafter : portfolio_of (sell b env user token sel).1 (uid user)
                     = (sell_fill (user_settings b) (draw env) (uid user)
                          (now_trade env) pf pos (quote b env token) token
                          (selected_amount sel pos)).1)
      by (unfold portfolio_of; rewrite Hpfs, lookup_insert_eq; reflexivity).
    rewrite Hbefore in Hfree. rewrite Hafter.
    destruct (sell_fill_cases (user_settings b) (draw env) (uid user)
                (now_trade env) pf pos (quote b env token) token
                (selected_amount sel pos))
      as [[_ ->] | (e & s & p & pct & h & _ & -> & _)]; [exact Hfree|].
    apply sold_positions_dust_free. exact Hfree.
Qed.

(** ** The other handlers *)

(** X15. [/start] never resets: afterwards the user has the portfolio
    held before, or the fresh one if there was none, and the portfolio
    of every other user is as it was. *)
Theorem start_keeps_portfolios (b : Bot) (env : Env) (user : User) :
  portfolios (start b env user) !! uid user = Some (portfolio_of b (uid user)) /\
  (is_Some (portfolios b !! uid user) ->
   portfolios (start b env user) = portfolios b) /\
  forall other, other <> uid user ->
    portfolios (start b env user) !! other = portfolios b !! other.
Proof.
  unfold start. split; [|split].
  - exact (lookup_ensure_portfolio (write_ok env) (uid user)
             (log_activity user (now_activity env) "start" b)).
  - intros Hheld.
    exact (portfolios_ensure_portfolio_held (write_ok env) (uid user)
             (log_activity user (now_activity env) "start" b) Hheld).
  - intros other Hne.
    exact (lookup_ensure_portfolio_other (write_ok env) (uid user) other
             (log_activity user (now_activity env) "start" b) Hne).
Qed.

(** X16. The [posbuy] button is all or nothing: unless it ends in a
    purchase, no portfolio is changed, also when the token is not held
    ([KeyError]) or when the average divides by zero, which the button
    computes before it debits the balance. *)
Theorem posbuy_all_or_nothing (b : Bot) (env : Env) (user : User) (token : string)
    (amount : Q) :
  (forall tokens exec_price hit,
     (handle_position_actions b env user token (PosBuy amount)).2
     <> Replied (Bought tokens exec_price hit)) ->
  portfolios (handle_position_actions b env user token (PosBuy amount)).1
  = portfolios b.
Proof.
  unfold handle_position_actions.
  destruct (portfolios b !! uid user) as [pf|]; [|reflexivity].
  destruct (Qgtb amount (balance pf)); [reflexivity|].
  destruct (get_token_info _ _ _ _) as [[info cache] reqs].
  destruct (Info.price info) as [price|]; [|reflexivity].
  destruct (truthy price); cbn [negb]; [|reflexivity].
  destruct (apply_slippage _ _ _ _ _) as [e h].
  destruct (pydiv amount e) as [t|]; [|reflexivity].
  destruct (positions pf !! token) as [pos|]; [|reflexivity].
  destruct (pydiv _ _) as [avg|]; [|reflexivity].
  cbn [snd]. intros Hnot. destruct (Hnot t e h eq_refl).
Qed.

(** X17. The [possell] button at 100 percent sells the whole position:
    with a finite amount of the token held, a price quoted and an
    average price that is not zero, the sale goes through for the amount
    held, the balance grows by that amount at the execution price, and
    the position is gone.  (A position whose amount is NaN stays, and is
    not covered.) *)
Theorem possell_everything_removes_position (b : Bot) (env : Env) (user : User)
    (token : string) (pf : Portfolio) (pos : Position.t) (price : Q) :
  let result := handle_position_actions b env user token (PosSell 100) in
  portfolios b !! uid user = Some pf ->
  positions pf !! token = Some pos ->
  Info.price (quote b env token) = Some price -> ~ price == 0 ->
  ~ Position.avg_price pos == 0 ->
  exists a exec_price sol_amount profit profit_pct hit pf',
    result.2 = Replied (Sold a exec_price sol_amount profit profit_pct hit) /\
    a == Position.amount pos /\
    portfolios result.1 !! uid user = Some pf' /\
    balance pf' == balance pf + Position.amount pos * exec_price /\
    positions pf' !! token = None.
Proof.
  intros result Hpf Hpos Hprice Hp Havg. subst result.
  unfold handle_position_actions, quote in *. rewrite Hpf, Hpos.
  destruct (get_token_info _ _ _ _) as [[info cache] reqs]. cbn [fst] in Hprice.
  cbn [set_price_cache user_settings portfolios].
  rewrite (sell_fill_completes _ _ _ (now_trade env) pf pos info token _ price
             Hprice Hp Havg).
  cbn [fst snd]. do 6 eexists. eexists.
  split; [reflexivity|]. split; [field|].
  rewrite portfolios_save_data. cbn [set_portfolios portfolios].
  split; [apply lookup_insert_eq|].
  cbn [balance positions]. split; [field|].
  unfold sold_positions.
  assert (Hres : Qltb (Position.amount pos - Position.amount pos * (100 / 100)) 0.0001
                 = true).
  { apply Qltb_true.
    assert (E : Position.amount pos - Position.amount pos * (100 / 100) == 0)
      by field.
    rewrite E. reflexivity. }
  rewrite Hres. apply lookup_delete_eq.
Qed.


(** X19. The tolerance a user sets bounds the slippage of the trades
    that follow.  After the [set_slip_<v>] button with [v >= 0], the
    user's tolerance is [v], and a price [p > 0] executes between [p]
    and [p * (1 + v/100)] for a buy, between [p * (1 - v/100)] and [p]
    for a sell; the tolerance of every other user is as it was. *)
Theorem chosen_tolerance_bounds_execution (b : Bot) (env : Env) (user : User)
    (v p u : Q) :
  let b' := handle_settings b env user (SetSlip (Some v)) in
  0 <= v -> 0 < p -> 0 <= u -> u < 1 ->
  slippage_pct (user_settings b') (uid user) = v /\
  (forall other, other <> uid user ->
     slippage_pct (user_settings b') other = slippage_pct (user_settings b) other) /\
  p <= (apply_slippage (user_settings b') u p true (uid user)).1 /\
  (apply_slippage (user_settings b') u p true (uid user)).1 <= p * (1 + v / 100) /\
  p * (1 - v / 100) <= (apply_slippage (user_settings b') u p false (uid user)).1 /\
  (apply_slippage (user_settings b') u p false (uid user)).1 <= p.
Proof.
  intros b' Hv Hp Hu0 Hu1.
  assert (Hset : user_settings b'
                 = <[uid user := mkSettings (Some v)]> (user_settings b)).
  { subst b'. unfold handle_settings. rewrite user_settings_save_data. reflexivity. }
  assert (Htol : slippage_pct (user_settings b') (uid user) = v).
  { unfold slippage_pct. rewrite Hset, lookup_insert_eq. reflexivity. }
  split; [exact Htol|]. split.
  { intros other Hne. unfold slippage_pct. rewrite Hset.
    rewrite lookup_insert_ne; [reflexivity | congruence]. }
  unfold apply_slippage. cbn [fst]. rewrite Htol.
  destruct (impact_range v u Hv Hu0 Hu1) as [Hi0 Hi1].
  set (impact := uniform 0 (v / 100) u) in *.
  assert (Hi : impact <= v / 100)
    by (apply Qle_shift_div_l; [reflexivity | exact Hi1]).
  repeat split; nra.
Qed.

(** ** Statistics, leaderboard and history *)

Lemma filter_disjoint_length {A : Type} (f g : A -> bool) (l : list A) :
  (forall x, f x = true -> g x = true -> False) ->
  (length (List.filter f l) + length (List.filter g l) <= length l)%nat.
Proof.
  intros Hdis. induction l as [|x l IH]; [cbn; lia|].
  cbn [List.filter]. specialize (Hdis x).
  destruct (f x), (g x); cbn [length]; try lia;
    destruct (Hdis eq_refl eq_refl).
Qed.

Lemma len_nonneg {A : Type} (l : list A) : 0 <= len l.
Proof.
  unfold len. rewrite <- (Zle_Qle 0). lia.
Qed.

Lemma len_le {A : Type} (l k : list A) : (length l <= length k)%nat -> len l <= len k.
Proof.
  intros H. unfold len. rewrite <- Zle_Qle. lia.
Qed.

(** X20. The figures of [/stats] are consistent: every trade counts as
    a buy or as a sell, the winning and the losing sells are not more
    than the sells, and the win rate lies between 0 and 100 (it is 0,
    without a division, when nothing was sold). *)
Theorem trade_stats_consistent (trades : list Trade.t) :
  let s := trade_stats trades in
  (buys s + sells s = total_trades s)%nat /\
  (winning_trades s + losing_trades s <= sells s)%nat /\
  0 <= win_rate s /\ win_rate s <= 100 /\
  (sells s = 0%nat -> win_rate s = 0).
Proof.
  cbn zeta. unfold trade_stats.
  cbn [buys sells total_trades winning_trades losing_trades win_rate].
  split.
  { induction trades as [|t trades IH]; [reflexivity|].
    cbn [List.filter]. unfold is_buy at 1, is_sell at 1.
    destruct (Trade.type t); cbn [length]; lia. }
  split.
  { apply filter_disjoint_length. intros t Hw Hl.
    apply Qltb_true in Hw, Hl. lra. }
  set (sell_trades := List.filter is_sell trades).
  set (winning := List.filter _ sell_trades).
  assert (Hle : (length winning <= length sell_trades)%nat)
    by apply filter_length_le.
  destruct sell_trades as [|t rest] eqn:Hsell.
  { repeat split; try lra. }
  rewrite <- Hsell in *.
  assert (Hpos : 0 < len sell_trades).
  { unfold len. rewrite <- (Zlt_Qlt 0). rewrite Hsell. cbn [length]. lia. }
  pose proof (len_nonneg winning) as Hw0.
  pose proof (len_le _ _ Hle) as Hw1.
  assert (Hq0 : 0 <= len winning / len sell_trades)
    by (apply Qle_shift_div_l; lra).
  assert (Hq1 : len winning / len sell_trades <= 1)
    by (apply Qle_shift_div_r; lra).
  repeat split; try lra.
  rewrite Hsell. cbn [length]. discriminate.
Qed.

Lemma trade_stats_after_sell (trades : list Trade.t) (t : Trade.t) (p : Q) :
  Trade.type t = SELL -> Trade.profit t = Some p ->
  let before := trade_stats trades in
  let after := trade_stats (trades ++ [t]) in
  total_trades after = S (total_trades before) /\
  buys after = buys before /\
  sells after = S (sells before) /\
  total_profit after = total_profit before + p /\
  (0 < p -> winning_trades after = S (winning_trades before)) /\
  (p < 0 -> losing_trades after = S (losing_trades before)) /\
  (p <= 0 -> winning_trades after = winning_trades before).
Proof.
  intros Htype Hprofit. cbn zeta. unfold trade_stats.
  cbn [buys sells total_trades winning_trades losing_trades total_profit].
  assert (Hs : List.filter is_sell (trades ++ [t]) = List.filter is_sell trades ++ [t])
    by (rewrite List.filter_app; cbn; unfold is_sell; rewrite Htype; reflexivity).
  assert (Hb : List.filter is_buy (trades ++ [t]) = List.filter is_buy trades)
    by (rewrite List.filter_app; cbn; unfold is_buy; rewrite Htype; apply app_nil_r).
  assert (Hq : trade_profit t = p)
    by (unfold trade_profit; rewrite Hprofit; reflexivity).
  rewrite Hs, Hb, !List.filter_app. cbn [List.filter]. rewrite Hq.
  split; [rewrite length_app; cbn; lia|].
  split; [reflexivity|].
  split; [rewrite length_app; cbn; lia|].
  split.
  { rewrite fmap_app. unfold py_sum. rewrite fold_left_app.
    cbn [fmap list_fmap fold_left]. rewrite Hq. reflexivity. }
  split; [|split].
  - intros Hp. apply Qltb_true in Hp. unfold Qgtb. rewrite Hp.
    rewrite length_app. cbn. lia.
  - intros Hp. apply Qltb_true in Hp. rewrite Hp.
    rewrite length_app. cbn. lia.
  - intros Hp. apply Qltb_false in Hp. unfold Qgtb. rewrite Hp.
    rewrite app_nil_r. reflexivity.
Qed.

(** X21. A sale shows in [/stats].  After a [/sell] that went through,
    the history counts one sell and one trade more and as many buys, the
    realized profit is the one before plus the profit of the sale, and
    the sale counts as winning when its profit is positive, as losing
    when it is negative. *)
Theorem stats_count_the_sale (b b' : Bot) (env : Env) (user : User) (token : string)
    (sel : Selector) (a exec_price sol_amount profit profit_pct hit : Q) :
  sell b env user token sel = (b', Sold a exec_price sol_amount profit profit_pct hit) ->
  let before := trade_stats (history (portfolio_of b (uid user))) in
  let after := trade_stats (history (portfolio_of b' (uid user))) in
  total_trades after = S (total_trades before) /\
  buys after = buys before /\
  sells after = S (sells before) /\
  total_profit after = total_profit before + profit /\
  (0 < profit -> winning_trades after = S (winning_trades before)) /\
  (profit < 0 -> losing_trades after = S (losing_trades before)) /\
  (profit <= 0 -> winning_trades after = winning_trades before).
Proof.
  intros Hsell.
  destruct (sell_Sold _ _ _ _ _ _ _ _ _ _ _ _ Hsell)
    as (pf & pos & pf' & Hpf & Hpos & _ & Hpf' & Hfill).
  destruct (sell_fill_Sold _ _ _ _ _ _ _ _ _ _ _ _ _ _ _ _ Hfill)
    as (price & _ & _ & _ & _ & _ & Hprofit & _ & _ & Hhist & _).
  unfold portfolio_of. rewrite Hpf, Hpf'.
  change (default fresh_portfolio (Some pf)) with pf.
  change (default fresh_portfolio (Some pf')) with pf'.
  rewrite Hhist, Hprofit.
  apply trade_stats_after_sell; reflexivity.
Qed.

Lemma insert_row_Permutation (r : Row) (rows : list Row) :
  insert_row r rows ≡ₚ r :: rows.
Proof.
  induction rows as [|r' rows IH]; [reflexivity|].
  cbn [insert_row]. destruct (Qltb (row_equity r) (row_equity r')); [|reflexivity].
  rewrite IH. apply Permutation_swap.
Qed.

Lemma insert_row_sorted (r : Row) (rows : list Row) :
  StronglySorted richer rows -> StronglySorted richer (insert_row r rows).
Proof.
  induction rows as [|r' rows IH]; intros Hsorted.
  - repeat constructor.
  - apply StronglySorted_inv in Hsorted as [Hrest Hfirst].
    cbn [insert_row]. destruct (Qltb (row_equity r) (row_equity r')) eqn:Hlt.
    + apply Qltb_true in Hlt. constructor; [exact (IH Hrest)|].
      rewrite insert_row_Permutation. constructor; [|exact Hfirst].
      unfold richer. lra.
    + apply Qltb_false in Hlt. constructor.
      * constructor; assumption.
      * constructor; [exact Hlt|].
        eapply Forall_impl; [exact Hfirst|].
        intros x Hx. unfold richer in *. lra.
Qed.

Lemma sort_rows_Permutation (rows : list Row) : sort_rows rows ≡ₚ rows.
Proof.
  induction rows as [|r rows IH]; [reflexivity|].
  unfold sort_rows in *. cbn [foldr]. rewrite insert_row_Permutation, IH. reflexivity.
Qed.

Lemma sort_rows_sorted (rows : list Row) : StronglySorted richer (sort_rows rows).
Proof.
  induction rows as [|r rows IH]; [constructor|].
  unfold sort_rows in *. cbn [foldr]. apply insert_row_sorted. exact IH.
Qed.

(** X22. The leaderboard of portfolios whose equities are numbers shows
    the ten with the greatest equity, or all of them when they are fewer:
    the rows are in the order of their equity, the greatest first;
    together with the rows left out they are the rows of all portfolios,
    one each; and no row left out has more equity than a row shown.
    (Equities are rationals here: a NaN among them, which [list.sort]
    does not order, is not covered.) *)
Theorem leaderboard_shows_the_richest (price_of : string -> option Q)
    (items : list (Z * Portfolio)) (shown : list Row) :
  leaderboard price_of items = Some shown ->
  length shown = min 10 (length items) /\
  StronglySorted richer shown /\
  exists hidden,
    shown ++ hidden ≡ₚ leaderboard_row price_of <$> items /\
    forall r r', r ∈ shown -> r' ∈ hidden -> row_equity r' <= row_equity r.
Proof.
  unfold leaderboard. destruct items as [|item items]; [discriminate|].
  intros [= <-].
  set (rows := leaderboard_row price_of <$> item :: items).
  pose proof (sort_rows_sorted rows) as Hsorted.
  rewrite <- (take_drop 10 (sort_rows rows)) in Hsorted.
  split.
  { assert (Hlen : length (sort_rows rows) = length (item :: items))
      by (rewrite (Permutation_length (sort_rows_Permutation rows));
          apply length_fmap).
    rewrite length_take. exact (f_equal (Nat.min 10) Hlen). }
  split; [exact (StronglySorted_app_1_l _ _ _ Hsorted)|].
  exists (drop 10 (sort_rows rows)). split.
  - rewrite take_drop. apply sort_rows_Permutation.
  - intros r r' Hr Hr'.
    exact (StronglySorted_app_1_elem_of _ _ _ _ _ Hsorted Hr Hr').
Qed.


(** X25. A purchase is what [/history] shows first: after a [/buy]
    that went through, the reply starts with the BUY trade of the
    tokens bought, at the execution price, for the amount requested,
    followed by the nine latest trades from before. *)
Theorem history_command_after_buy (b b' : Bot) (env : Env) (user : User)
    (token : string) (sol_amount tokens exec_price hit : Q) :
  buy b env user token sol_amount = (b', Bought tokens exec_price hit) ->
  history_command b' user
  = Some (Trade.mk BUY token tokens exec_price sol_amount None (now_trade env)
          :: take 9 (reverse (history (portfolio_of b (uid user))))).
Proof.
  intros Hbuy.
  destruct (buy_Bought _ _ _ _ _ _ _ _ _ Hbuy) as (_ & pf' & Hpf' & Hfill).
  destruct (buy_fill_Bought _ _ _ _ _ _ _ _ _ _ _ _ Hfill)
    as (price & _ & _ & _ & _ & _ & Hhist & _).
  unfold history_command. rewrite Hpf', Hhist.
  destruct (history _ ++ [_]) as [|t0 rest] eqn:Hne.
  { destruct (history (portfolio_of b (uid user))); discriminate. }
  rewrite <- Hne. f_equal. rewrite <- take_reverse, reverse_app. reflexivity.
Qed.

(** ** Activity, saving and loading *)

Lemma load_items_app {V : Type} (l1 l2 : list (string * V)) (acc : gmap Z V) :
  load_items (l1 ++ l2) acc
  = if (load_items l1 acc).2 then load_items l2 (load_items l1 acc).1
    else load_items l1 acc.
Proof.
  revert acc. induction l1 as [|[k v] l1 IH]; intros acc; [reflexivity|].
  cbn [app load_items]. destruct (py_int k); [apply IH | reflexivity].
Qed.

(** A key with a character that is foreign to integers is refused. *)
Lemma uint_of_string_foreign (s : string) :
  has_foreign_char s = true -> NilEmpty.uint_of_string s = None.
Proof.
  induction s as [|a s IH]; [discriminate|].
  cbn [has_foreign_char NilEmpty.uint_of_string]. intros H.
  apply orb_true_iff in H as [H|H].
  - destruct (NilEmpty.uint_of_string s); [|reflexivity].
    destruct a as [[|] [|] [|] [|] [|] [|] [|] [|]];
      first [discriminate H | reflexivity].
  - rewrite (IH H). reflexivity.
Qed.

Lemma py_int_foreign (s : string) : has_foreign_char s = true -> py_int s = None.
Proof.
  intros H. unfold py_int, NilZero.int_of_string.
  destruct s as [|a s]; [reflexivity|].
  destruct (Ascii.eqb_spec a "-"%char) as [->|_].
  - cbn [has_foreign_char] in H. change (foreign_to_int "-") with false in H.
    cbn [orb] in H. unfold NilZero.uint_of_string.
    destruct s; [reflexivity|].
    rewrite (uint_of_string_foreign _ H). reflexivity.
  - unfold NilZero.uint_of_string. rewrite (uint_of_string_foreign _ H). reflexivity.
Qed.

(** X26. One key that is not a number spoils the loading.  When the
    portfolios of the file have, after some entries that [save_data]
    wrote, a key with a character that no integer is written with (a
    letter, a dot, any printable ASCII character other than digits, signs
    and the underscore), [load_data] keeps those entries only: the
    portfolios behind the bad key are lost, and the watchlists, settings
    and activity in memory stay as they are, whatever the file holds for
    them. *)
Theorem load_data_stops_at_bad_key (b : Bot) (doc : Document)
    (good : list (Z * Portfolio)) (k : string) (v : Portfolio)
    (rest : list (string * Portfolio)) :
  disk b = Some doc ->
  doc_portfolios doc
  = Some (((fun kv => (py_str kv.1, kv.2)) <$> good) ++ (k, v) :: rest) ->
  has_foreign_char k = true ->
  portfolios (load_data b) = list_to_map (reverse good) /\
  watchlists (load_data b) = watchlists b /\
  user_settings (load_data b) = user_settings b /\
  user_stats (load_data b) = user_stats b.
Proof.
  intros Hdisk Hdoc Hbad. apply py_int_foreign in Hbad.
  unfold load_data. rewrite Hdisk, Hdoc.
  cbn [load_collection]. rewrite load_items_app, load_items_dumped.
  cbn [fst snd load_items]. rewrite Hbad. cbn [negb].
  rewrite (right_id ∅ (∪)). repeat split.
Qed.

Lemma user_stats_save_data (w : bool) (b : Bot) :
  user_stats (save_data w b) = user_stats b.
Proof. destruct w; reflexivity. Qed.

Lemma user_stats_ensure_portfolio (w : bool) (user_id : Z) (b : Bot) :
  user_stats (ensure_portfolio w user_id b) = user_stats b.
Proof.
  unfold ensure_portfolio. destruct (portfolios b !! user_id); [reflexivity|].
  rewrite user_stats_save_data. reflexivity.
Qed.

(** X27. Every [/buy] and every [/sell] is counted, whatever its
    outcome: the user's counter of the command is one more than before
    (one for a first use), and the time of the attempt is the user's
    last activity.  [/fund] is not counted. *)
Theorem trades_are_counted (b : Bot) (env : Env) (user : User) (token : string)
    (amount : Q) (sel : Selector) (arg : option Q) :
  let count (command : string) :=
    match user_stats b !! uid user with
    | Some stats => default 0%Z (commands stats !! command)
    | None => 0%Z
    end in
  (exists stats,
     user_stats (buy b env user token amount).1 !! uid user = Some stats /\
     commands stats !! "buy"%string = Some (count "buy"%string + 1)%Z /\
     last_active stats = now_activity env) /\
  (exists stats,
     user_stats (sell b env user token sel).1 !! uid user = Some stats /\
     commands stats !! "sell"%string = Some (count "sell"%string + 1)%Z /\
     last_active stats = now_activity env) /\
  user_stats (fund b env user arg).1 = user_stats b.
Proof.
  cbn zeta.
  assert (Hlog : forall command,
            exists stats,
              user_stats (log_activity user (now_activity env) command b) !! uid user
              = Some stats /\
              commands stats !! command
              = Some (match user_stats b !! uid user with
                      | Some stats => default 0%Z (commands stats !! command)
                      | None => 0%Z
                      end + 1)%Z /\
              last_active stats = now_activity env).
  { intros command. unfold log_activity. cbn [set_user_stats user_stats].
    rewrite lookup_insert_eq. eexists. split; [reflexivity|].
    cbn [commands last_active]. rewrite lookup_insert_eq.
    destruct (user_stats b !! uid user); split; reflexivity. }
  split; [|split].
  - assert (Hsame : user_stats (buy b env user token amount).1
                    = user_stats (log_activity user (now_activity env) "buy" b)).
    { unfold buy.
      destruct (Qgtb amount _); [apply user_stats_ensure_portfolio|].
      destruct (get_token_info _ _ _ _) as [[info cache] reqs].
      destruct (buy_fill _ _ _ _ _ _ _ _) as [pf' out].
      destruct out; cbn [fst]; rewrite ?user_stats_save_data;
        apply user_stats_ensure_portfolio. }
    rewrite Hsame. apply Hlog.
  - assert (Hsame : user_stats (sell b env user token sel).1
                    = user_stats (log_activity user (now_activity env) "sell" b)).
    { unfold sell.
      destruct (portfolios _ !! uid user) as [pf|]; [|reflexivity].
      destruct (positions pf !! token) as [pos|]; [|reflexivity].
      destruct (Qgtb _ _); [reflexivity|].
      destruct (get_token_info _ _ _ _) as [[info cache] reqs].
      destruct (sell_fill _ _ _ _ _ _ _ _ _) as [pf' out].
      destruct out; cbn [fst]; rewrite ?user_stats_save_data; reflexivity. }
    rewrite Hsame. apply Hlog.
  - unfold fund. destruct (portfolios b !! uid user); [|reflexivity].
    destruct (Qgtb _ fund_cap); [reflexivity|]. cbn [fst].
    rewrite user_stats_save_data. reflexivity.
Qed.

(** X28. A purchase survives a restart when the file could be written:
    after a [/buy] that went through, the file holds the state in
    memory, and [load_data] in a process that starts from any state with
    that file gives back every portfolio, the trade included.  When the
    write failed, the purchase is in memory only: the file of a user who
    had a portfolio is as before. *)
Theorem purchase_is_persisted (b b' b0 : Bot) (env : Env) (user : User)
    (token : string) (sol_amount tokens exec_price hit : Q) :
  buy b env user token sol_amount = (b', Bought tokens exec_price hit) ->
  (write_ok env = true ->
   disk b' = Some (snapshot b') /\
   portfolios (load_data (set_disk b0 (disk b'))) = portfolios b') /\
  (write_ok env = false -> is_Some (portfolios b !! uid user) -> disk b' = disk b).
Proof.
  intros Hbuy.
  assert (Hsaved : exists b3,
            b' = save_data (write_ok env) b3 /\
            disk b3 = disk (buy_entry b env user)).
  { unfold buy in Hbuy. fold (buy_entry b env user) in Hbuy.
    destruct (Qgtb sol_amount _); [discriminate|].
    destruct (get_token_info _ _ _ _) as [[info cache] reqs].
    destruct (buy_fill _ _ _ _ _ _ _ _) as [pf' out].
    destruct out; try discriminate.
    injection Hbuy as <- _ _ _. eexists. split; reflexivity. }
  destruct Hsaved as (b3 & -> & Hdisk3). split.
  - intros ->. cbn [save_data _write_file_sync set_disk disk].
    split; [reflexivity|].
    cbn [set_disk disk load_data snapshot doc_portfolios doc_watchlists
         doc_user_settings doc_user_stats load_collection portfolios].
    rewrite !load_items_dump_dict. reflexivity.
  - intros -> [pf Hpf]. cbn [save_data]. rewrite Hdisk3.
    unfold buy_entry, ensure_portfolio.
    cbn [log_activity set_user_stats portfolios]. rewrite Hpf. reflexivity.
Qed.

(** * The further properties at the scenario *)

Section MoreWitnesses.
Import Scenario Scenario2.

Lemma get_token_info_keeps_other_entries_witness :
  (get_token_info (price_cache bot1) (dex_net 0.3) (clock_at 160) "Other").1.2 !! token
  = price_cache bot1 !! token.
Proof.
  apply (get_token_info_keeps_other_entries (price_cache bot1) (dex_net 0.3)
           (clock_at 160) "Other" token).
  evaluate.
Defined.

Lemma quote_needs_sol_price_witness :
  Info.price (get_token_info ∅ no_sol_net (clock_at 100) token).1.1 = None.
Proof.
  apply (quote_needs_sol_price ∅ no_sol_net (clock_at 100) token); evaluate.
Defined.

Lemma dexscreener_quote_ends_chain_witness :
  let result := get_token_info ∅ (dex_net 0.15) (clock_at 100) token in
  let best := max_by liquidity_key thin_pair [deep_pair 0.15] in
  Info.price result.1.1
  = Some (default 0 (priceUsd best) / (fetch_sol_price (dex_net 0.15)).1) /\
  Info.dex_name result.1.1 = Some (default "Unknown DEX"%string (dexId best)) /\
  result.2 = (fetch_sol_price (dex_net 0.15)).2
             ++ [GetPumpFun token; GetDexScreener token] /\
  result.1.2 !! token = Some (mkCacheEntry (t_store (clock_at 100)) result.1.1).
Proof.
  apply (dexscreener_quote_ends_chain ∅ (dex_net 0.15) (clock_at 100) token
           thin_pair [deep_pair 0.15]); evaluate.
Defined.

Lemma birdeye_is_last_resort_witness :
  let result := get_token_info ∅ birdeye_net (clock_at 100) token in
  Info.price result.1.1 = Some (0.15 / (fetch_sol_price birdeye_net).1) /\
  Info.price_usd result.1.1 = Some 0.15 /\
  Info.dex_name result.1.1 = Some "Birdeye"%string /\
  result.2 = (fetch_sol_price birdeye_net).2
             ++ [GetPumpFun token; GetDexScreener token; GetJupiter token;
                 GetBirdeye token].
Proof.
  apply (birdeye_is_last_resort ∅ birdeye_net (clock_at 100) token 0.15); evaluate.
Defined.

(** A coin on its curve whose branch raises: DexScreener is asked and
    the quote is stored. *)
Lemma pump_fun_exception_goes_on_witness :
  let result := get_token_info ∅ (raising_net far_curve) (clock_at 100) token in
  (exists chain,
     result.2
     = (fetch_sol_price (raising_net far_curve)).2
       ++ [GetPumpFun token; GetDexScreener token] ++ chain) /\
  result.1.2 !! token = Some (mkCacheEntry (t_store (clock_at 100)) result.1.1).
Proof.
  apply (pump_fun_exception_goes_on ∅ (raising_net far_curve) (clock_at 100) token
           far_curve); evaluate.
Defined.


(** A call that found no price, and the call one second after it. *)
Lemma get_token_info_second_call_cached_witness :
  let first := get_token_info ∅ silent_net (clock_at 100) token in
  first.1.1 = with_sol_price 150 Info.init /\
  get_token_info first.1.2 (dex_net 0.15) (clock_at 103) token
  = (with_sol_price 150 Info.init, first.1.2, []).
Proof.
  apply (get_token_info_second_call_cached ∅ silent_net (dex_net 0.15)
           (clock_at 100) (clock_at 103) token (with_sol_price 150 Info.init)
           [GetSolJupiter; GetPumpFun token; GetDexScreener token;
            GetJupiter token; GetBirdeye token]);
    evaluate.
Defined.

Lemma buy_rejected_leaves_portfolio_witness :
  exists pf',
    portfolios (buy bot1 silent_env alice "Unknown" 5).1 !! uid alice = Some pf' /\
    positions pf' = positions (portfolio_of bot1 (uid alice)) /\
    history pf' = history (portfolio_of bot1 (uid alice)) /\
    ((buy bot1 silent_env alice "Unknown" 5).2 <> ZeroDivisionError ->
     pf' = portfolio_of bot1 (uid alice) /\
     portfolios (buy bot1 silent_env alice "Unknown" 5).1
     = portfolios (buy_entry bot1 silent_env alice)).
Proof.
  apply (buy_rejected_leaves_portfolio bot1 silent_env alice "Unknown" 5).
  intros tokens exec_price hit. evaluate.
Defined.

Lemma sell_rejected_changes_nothing_witness :
  portfolios (sell bot1 sell_env alice token (Amount 6000)).1 = portfolios bot1.
Proof.
  apply (sell_rejected_changes_nothing bot1 sell_env alice token (Amount 6000)).
  intros a exec_price sol_amount profit profit_pct hit. evaluate.
Defined.

Lemma commands_touch_one_portfolio_witness :
  portfolios (buy bot1 buy_env bob token 5).1 !! 7%Z = portfolios bot1 !! 7%Z /\
  portfolios (sell bot1 buy_env bob token All).1 !! 7%Z = portfolios bot1 !! 7%Z /\
  portfolios (fund bot1 buy_env bob (Some 5)).1 !! 7%Z = portfolios bot1 !! 7%Z /\
  portfolios (reset bot1 buy_env bob) !! 7%Z = portfolios bot1 !! 7%Z.
Proof.
  apply (commands_touch_one_portfolio bot1 buy_env bob token 5 All (Some 5) 7%Z).
  evaluate.
Defined.

Lemma buy_never_overdraws_witness :
  exists pf', portfolios bot1 !! uid alice = Some pf' /\ 0 <= balance pf'.
Proof.
  eapply (buy_never_overdraws bot0 bot1 buy_env alice token 5). evaluate.
Defined.

Lemma sell_keeps_positions_dust_free_witness :
  dust_free
    (positions (portfolio_of (sell bot1 sell_env alice token (Amount 4999.99995)).1
                  (uid alice))).
Proof.
  apply (sell_keeps_positions_dust_free bot1 sell_env alice token (Amount 4999.99995)).
  intros tok pos.
  assert (E : positions (portfolio_of bot1 (uid alice)) = {[ token := pos1 ]})
    by evaluate.
  rewrite E. intros H. apply lookup_singleton_Some in H as [_ <-]. evaluate.
Defined.

Lemma posbuy_all_or_nothing_witness :
  portfolios (handle_position_actions bot0 buy_env alice token (PosBuy 5)).1
  = portfolios bot0.
Proof.
  apply (posbuy_all_or_nothing bot0 buy_env alice token 5).
  intros tokens exec_price hit. evaluate.
Defined.

Lemma possell_everything_removes_position_witness :
  exists a exec_price sol_amount profit profit_pct hit pf',
    (handle_position_actions bot1 sell_env alice token (PosSell 100)).2
    = Replied (Sold a exec_price sol_amount profit profit_pct hit) /\
    a == Position.amount pos1 /\
    portfolios (handle_position_actions bot1 sell_env alice token (PosSell 100)).1
    !! uid alice = Some pf' /\
    balance pf' == balance (portfolio_of bot1 (uid alice))
                   + Position.amount pos1 * exec_price /\
    positions pf' !! token = None.
Proof.
  apply (possell_everything_removes_position bot1 sell_env alice token
           (portfolio_of bot1 (uid alice)) pos1 (0.3 / 150)); evaluate.
Defined.


Lemma chosen_tolerance_bounds_execution_witness :
  let b' := handle_settings bot0 buy_env alice (SetSlip (Some 3)) in
  slippage_pct (user_settings b') (uid alice) = 3 /\
  (forall other, other <> uid alice ->
     slippage_pct (user_settings b') other = slippage_pct (user_settings bot0) other) /\
  0.001 <= (apply_slippage (user_settings b') 0.5 0.001 true (uid alice)).1 /\
  (apply_slippage (user_settings b') 0.5 0.001 true (uid alice)).1
  <= 0.001 * (1 + 3 / 100) /\
  0.001 * (1 - 3 / 100)
  <= (apply_slippage (user_settings b') 0.5 0.001 false (uid alice)).1 /\
  (apply_slippage (user_settings b') 0.5 0.001 false (uid alice)).1 <= 0.001.
Proof.
  apply (chosen_tolerance_bounds_execution bot0 buy_env alice 3 0.001 0.5); evaluate.
Defined.

Lemma stats_count_the_sale_witness :
  let before := trade_stats (history (portfolio_of bot1 (uid alice))) in
  let after := trade_stats (history (portfolio_of bot2 (uid alice))) in
  let profit :=
    ((apply_slippage ∅ 0 (0.3 / 150) false 7).1 - Position.avg_price pos1)
    * Position.amount pos1 in
  total_trades after = S (total_trades before) /\
  buys after = buys before /\
  sells after = S (sells before) /\
  total_profit after = total_profit before + profit /\
  (0 < profit -> winning_trades after = S (winning_trades before)) /\
  (profit < 0 -> losing_trades after = S (losing_trades before)) /\
  (profit <= 0 -> winning_trades after = winning_trades before).
Proof.
  eapply (stats_count_the_sale bot1 bot2 sell_env alice token All).
  evaluate.
Defined.

(** Twelve traders: ten are shown, the two poorest are not. *)
Lemma leaderboard_shows_the_richest_witness :
  length top_ten = min 10 (length many_traders) /\
  StronglySorted richer top_ten /\
  exists hidden,
    top_ten ++ hidden ≡ₚ leaderboard_row at_cost <$> many_traders /\
    forall r r', r ∈ top_ten -> r' ∈ hidden -> row_equity r' <= row_equity r.
Proof.
  apply (leaderboard_shows_the_richest at_cost many_traders top_ten). evaluate.
Defined.

(** The rows of that leaderboard, by user and equity. *)
Example leaderboard_of_twelve :
  (fun r => (row_user_id r, row_equity r)) <$> top_ten
  = [(5%Z, 45); (11%Z, 38); (7%Z, 31); (2%Z, 27); (10%Z, 22); (4%Z, 20);
     (8%Z, 16); (1%Z, 12); (6%Z, 8); (9%Z, 5)].
Proof. reflexivity. Qed.

(** Two traders of equal equity stay in the order of the dict. *)
Example leaderboard_keeps_order_of_equals :
  row_user_id <$> board = [8%Z; 7%Z] /\
  Forall (fun r => row_equity r == 20) board.
Proof. split; [reflexivity|]. repeat constructor. Qed.


Lemma history_command_after_buy_witness :
  history_command bot1 alice
  = Some (Trade.mk BUY token (Position.amount pos1) (Position.avg_price pos1) 5 None
            (now_trade buy_env)
          :: take 9 (reverse (history (portfolio_of bot0 (uid alice))))).
Proof.
  eapply (history_command_after_buy bot0 bot1 buy_env alice token 5). evaluate.
Defined.

Lemma load_data_stops_at_bad_key_witness :
  portfolios (load_data corrupt_bot) = list_to_map (reverse [(7%Z, fresh_portfolio)]) /\
  watchlists (load_data corrupt_bot) = watchlists corrupt_bot /\
  user_settings (load_data corrupt_bot) = user_settings corrupt_bot /\
  user_stats (load_data corrupt_bot) = user_stats corrupt_bot.
Proof.
  apply (load_data_stops_at_bad_key corrupt_bot corrupt_doc [(7%Z, fresh_portfolio)]
           "seven" fresh_portfolio []); evaluate.
Defined.

Lemma purchase_is_persisted_witness :
  (write_ok buy_env = true ->
   disk bot1 = Some (snapshot bot1) /\
   portfolios (load_data (set_disk bot0 (disk bot1))) = portfolios bot1) /\
  (write_ok buy_env = false -> is_Some (portfolios bot0 !! uid alice) ->
   disk bot1 = disk bot0).
Proof.
  eapply (purchase_is_persisted bot0 bot1 bot0 buy_env alice token 5). evaluate.
Defined.

End MoreWitnesses.
